(** * Announcement service: a shallow embedding of
      [src/backend/routers/announcements.py] and its specification.

    The module is a FastAPI router with five handlers over one MongoDB
    collection ([announcements_collection]) and one lookup in a second
    collection ([teachers_collection]).  The handlers are embedded as
    functions in a state-and-exception monad over the announcement
    collection; the teacher collection is only read. *)

From Stdlib Require Import ZArith NArith String Ascii List Sorting.Sorted.
From stdpp Require Import gmap strings list fin_maps sorting.

Local Open Scope Z_scope.

(** ** Values of the host language *)

(** A naive [datetime] is a point on one time line; it is kept as the
    number of microseconds since 1970-01-01T00:00:00, so that Python's
    comparison of naive datetimes is [Z]'s order.  Python's datetimes
    have microseconds; the store keeps milliseconds (see
    [Collection.bson_datetime]). *)
Abbreviation datetime := Z (only parsing).

(** A BSON [ObjectId] is a 12-byte value, kept as the number it spells. *)
Abbreviation oid := N (only parsing).

(** Python's truth test on an [Optional[str]]: [None] and the empty string
    are false.  [truthy s] is the string itself when [s] passes the test. *)
Definition truthy (s : option string) : option string :=
  match s with
  | Some EmptyString => None
  | Some v => Some v
  | None => None
  end.

(** ** Exceptions and handler results *)

(** [fastapi.HTTPException(status_code, detail)]. *)
Record HTTPException := { status_code : Z; detail : string }.

Inductive result (A : Type) : Type :=
| Ok (a : A)
| Raise (e : HTTPException).
Arguments Ok {A} a.
Arguments Raise {A} e.

(** The three error kinds of the service, by status code. *)
Inductive error_kind := Unauthenticated | BadRequest | NotFound.

Definition kind_of_status (c : Z) : option error_kind :=
  if c =? 401 then Some Unauthenticated
  else if c =? 400 then Some BadRequest
  else if c =? 404 then Some NotFound
  else None.

Definition fails_with {A} (r : result A) (k : error_kind) : Prop :=
  match r with
  | Ok _ => False
  | Raise e => kind_of_status (status_code e) = Some k
  end.

(** ** Documents *)

(** A teacher document: its key [_id] and its [username] field when the
    document has one. *)
Module Teacher.
Record t := { _id : string; username : option string }.
End Teacher.

(** An announcement document as [create_announcement] builds it.  The
    store's [_id] is the key of the collection, not a field. *)
Module Doc.
Record t := {
  message : string;
  starts_at : option datetime;
  expires_at : datetime;
  created_by : string;
  created_at : datetime
}.
End Doc.

(** The dictionary built for each listed announcement. *)
Module Item.
Record t := {
  id : string;
  message : string;
  starts_at : option datetime;
  expires_at : datetime;
  created_by : string
}.
End Item.

(** [{"id": ..., "message": ...}] *)
Module Created.
Record t := { id : string; message : string }.
End Created.

(** [{"id": ..., "updated": True}] *)
Module Updated.
Record t := { id : string; updated : bool }.
End Updated.

(** [{"id": ..., "deleted": True}] *)
Module Deleted.
Record t := { id : string; deleted : bool }.
End Deleted.

(** The dictionary [update] that [update_announcement] fills and passes to
    [$set]: each key is present ([Some]) or not; the value under
    ["starts_at"] may itself be [None]. *)
Module UpdateSet.
Record t := {
  message : option string;
  expires_at : option datetime;
  starts_at : option (option datetime)
}.
Definition empty : t :=
  {| message := None; expires_at := None; starts_at := None |}.
(** Python's [not update]: the dictionary has no key. *)
Definition is_empty (u : t) : bool :=
  match message u, expires_at u, starts_at u with
  | None, None, None => true
  | _, _, _ => false
  end.
End UpdateSet.

(** ** The collections *)

(** A collection is a finite map from [_id] to document: MongoDB keeps
    [_id] unique. *)
Module Collection.

(** [teachers_collection.find_one({"_id": username})] *)
Definition find_one (c : gmap string (option string)) (key : string)
  : option Teacher.t :=
  match c !! key with
  | Some u => Some {| Teacher._id := key; Teacher.username := u |}
  | None => None
  end.

(** [find(query)]: the documents that satisfy [query], with their keys. *)
Definition find (query : Doc.t -> bool) (c : gmap oid Doc.t)
  : list (oid * Doc.t) :=
  filter (fun p => query (snd p)) (map_to_list c).

(** [.sort("expires_at", 1)]: ascending by [expires_at]. *)
Definition le_expires_at (a b : oid * Doc.t) : Prop :=
  Doc.expires_at (snd a) <= Doc.expires_at (snd b).

#[global] Instance le_expires_at_dec a b : Decision (le_expires_at a b).
Proof. unfold le_expires_at. apply _. Defined.

Definition sort_expires_at (l : list (oid * Doc.t)) : list (oid * Doc.t) :=
  merge_sort le_expires_at l.

(** A datetime as the store keeps it.  The driver encodes a [datetime]
    as a BSON date, a whole number of milliseconds: the microseconds
    below the millisecond are dropped ([microsecond // 1000]). *)
Definition bson_datetime (t : datetime) : datetime := t / 1000 * 1000.

(** A document as the driver encodes it for the store. *)
Definition bson_document (d : Doc.t) : Doc.t :=
  {| Doc.message := Doc.message d;
     Doc.starts_at := option_map bson_datetime (Doc.starts_at d);
     Doc.expires_at := bson_datetime (Doc.expires_at d);
     Doc.created_by := Doc.created_by d;
     Doc.created_at := bson_datetime (Doc.created_at d) |}.

(** A document whose datetimes are whole milliseconds: encoding leaves
    it as it is. *)
Definition in_milliseconds (d : Doc.t) : Prop := bson_document d = d.

(** [insert_one(doc)]: the encoded document is stored under an
    identifier that no stored document has; the identifier is returned
    ([result.inserted_id]). *)
Definition insert_one (d : Doc.t) (c : gmap oid Doc.t)
  : oid * gmap oid Doc.t :=
  let i := fresh (dom c) in (i, <[i := bson_document d]> c).

(** The effect of [{"$set": update}] on one document; the datetimes of
    [update] are encoded like those of a document. *)
Definition set_fields (u : UpdateSet.t) (d : Doc.t) : Doc.t :=
  {| Doc.message := default (Doc.message d) (UpdateSet.message u);
     Doc.starts_at :=
       match UpdateSet.starts_at u with
       | Some v => option_map bson_datetime v
       | None => Doc.starts_at d
       end;
     Doc.expires_at :=
       match UpdateSet.expires_at u with
       | Some t => bson_datetime t
       | None => Doc.expires_at d
       end;
     Doc.created_by := Doc.created_by d;
     Doc.created_at := Doc.created_at d |}.

(** [update_one({"_id": oid}, {"$set": update})]: returns
    [matched_count] and the collection afterwards. *)
Definition update_one (i : oid) (u : UpdateSet.t) (c : gmap oid Doc.t)
  : Z * gmap oid Doc.t :=
  match c !! i with
  | Some d => (1, <[i := set_fields u d]> c)
  | None => (0, c)
  end.

(** [delete_one({"_id": oid})]: returns [deleted_count] and the
    collection afterwards. *)
Definition delete_one (i : oid) (c : gmap oid Doc.t)
  : Z * gmap oid Doc.t :=
  match c !! i with
  | Some _ => (1, delete i c)
  | None => (0, c)
  end.

End Collection.

(** ** The handler monad: the announcement collection is threaded through,
    an [HTTPException] stops the handler. *)

Definition M (A : Type) : Type :=
  gmap oid Doc.t -> result A * gmap oid Doc.t.

Definition ret {A} (a : A) : M A := fun c => (Ok a, c).

Definition raise {A} (status : Z) (msg : string) : M A :=
  fun c => (Raise {| status_code := status; detail := msg |}, c).

Definition bind {A B} (m : M A) (k : A -> M B) : M B :=
  fun c =>
    match m c with
    | (Ok a, c') => k a c'
    | (Raise e, c') => (Raise e, c')
    end.

(** Run a collection operation that returns a value and the new
    collection. *)
Definition store {A} (op : gmap oid Doc.t -> A * gmap oid Doc.t) : M A :=
  fun c => let (a, c') := op c in (Ok a, c').

(** Read the collection. *)
Definition query {A} (f : gmap oid Doc.t -> A) : M A :=
  fun c => (Ok (f c), c).

Notation "'do' x <- m ; k" := (bind m (fun x => k))
  (at level 10, x name, m at level 100, k at level 200).

(** ** The library functions, at one concrete reading

    The handlers below are written over any [datetime.fromisoformat] and
    any [ObjectId] constructor.  This module gives one reading of each,
    used to run the handlers on concrete requests: the date-time strings
    [YYYY-MM-DD], [YYYY-MM-DD*HH:MM] and [YYYY-MM-DD*HH:MM:SS] ([*] any one
    character), and identifiers of 24 hexadecimal digits. *)
Module Lib.

Definition digit (c : ascii) : option Z :=
  let n := Z.of_N (N_of_ascii c) in
  if (48 <=? n) && (n <=? 57) then Some (n - 48) else None.

Definition digits2 (a b : ascii) : option Z :=
  match digit a, digit b with
  | Some x, Some y => Some (10 * x + y)
  | _, _ => None
  end.

Definition digits4 (a b c d : ascii) : option Z :=
  match digits2 a b, digits2 c d with
  | Some x, Some y => Some (100 * x + y)
  | _, _ => None
  end.

Definition is_leap (y : Z) : bool :=
  ((y mod 4 =? 0) && negb (y mod 100 =? 0)) || (y mod 400 =? 0).

Definition days_in_month (y m : Z) : Z :=
  if m =? 2 then (if is_leap y then 29 else 28)
  else if (m =? 4) || (m =? 6) || (m =? 9) || (m =? 11) then 30
  else 31.

(** Days from 1970-01-01 to the given date of the proleptic Gregorian
    calendar. *)
Definition days_from_civil (y m d : Z) : Z :=
  let y := if m <=? 2 then y - 1 else y in
  let era := y / 400 in
  let yoe := y - era * 400 in
  let mp := if 2 <? m then m - 3 else m + 9 in
  let doy := (153 * mp + 2) / 5 + d - 1 in
  let doe := yoe * 365 + yoe / 4 - yoe / 100 + doy in
  era * 146097 + doe - 719468.

Definition make_datetime (y m d hh mm ss : Z) : option Z :=
  if (1 <=? y) && (1 <=? m) && (m <=? 12) && (1 <=? d)
     && (d <=? days_in_month y m)
     && (hh <? 24) && (mm <? 60) && (ss <? 60)
  then Some ((((days_from_civil y m d * 24 + hh) * 60 + mm) * 60 + ss)
             * 1000000)
  else None.

Definition is_char (c : ascii) (n : N) : bool := N.eqb (N_of_ascii c) n.

Definition parse_date (y1 y2 y3 y4 s1 m1 m2 s2 d1 d2 : ascii)
  : option (Z * Z * Z) :=
  if is_char s1 45 && is_char s2 45 then
    match digits4 y1 y2 y3 y4, digits2 m1 m2, digits2 d1 d2 with
    | Some y, Some m, Some d => Some (y, m, d)
    | _, _, _ => None
    end
  else None.

Definition parse_time (l : list ascii) : option (Z * Z * Z) :=
  match l with
  | [h1; h2; c1; m1; m2] =>
      if is_char c1 58 then
        match digits2 h1 h2, digits2 m1 m2 with
        | Some hh, Some mm => Some (hh, mm, 0)
        | _, _ => None
        end
      else None
  | [h1; h2; c1; m1; m2; c2; s1; s2] =>
      if is_char c1 58 && is_char c2 58 then
        match digits2 h1 h2, digits2 m1 m2, digits2 s1 s2 with
        | Some hh, Some mm, Some ss => Some (hh, mm, ss)
        | _, _, _ => None
        end
      else None
  | _ => None
  end.

Definition fromisoformat (s : string) : option Z :=
  match list_ascii_of_string s with
  | y1 :: y2 :: y3 :: y4 :: s1 :: m1 :: m2 :: s2 :: d1 :: d2 :: rest =>
      match parse_date y1 y2 y3 y4 s1 m1 m2 s2 d1 d2 with
      | Some (y, m, d) =>
          match rest with
          | [] => make_datetime y m d 0 0 0
          | _ :: time =>
              match parse_time time with
              | Some (hh, mm, ss) => make_datetime y m d hh mm ss
              | None => None
              end
          end
      | None => None
      end
  | _ => None
  end.

Definition hex_digit (c : ascii) : option N :=
  let n := N_of_ascii c in
  if (48 <=? n)%N && (n <=? 57)%N then Some (n - 48)%N
  else if (97 <=? n)%N && (n <=? 102)%N then Some (n - 87)%N
  else if (65 <=? n)%N && (n <=? 70)%N then Some (n - 55)%N
  else None.

Fixpoint parse_hex (l : list ascii) (acc : N) : option N :=
  match l with
  | [] => Some acc
  | c :: l =>
      match hex_digit c with
      | Some d => parse_hex l (16 * acc + d)%N
      | None => None
      end
  end.

Definition ObjectId (s : string) : option N :=
  if Nat.eqb (String.length s) 24
  then parse_hex (list_ascii_of_string s) 0%N
  else None.

Definition hex_char (d : N) : ascii :=
  if (d <? 10)%N then ascii_of_N (48 + d) else ascii_of_N (87 + d).

Fixpoint to_hex (k : nat) (n : N) (acc : string) : string :=
  match k with
  | O => acc
  | S k => to_hex k (n / 16)%N (String (hex_char (n mod 16)%N) acc)
  end.

Definition str (i : N) : string := to_hex 24 i EmptyString.

End Lib.

(** ** A small school

    Two teachers, one of them without a [username] field, and one stored
    announcement; the requests of the examples below are made against
    this state. *)
Module School.

Definition teachers : gmap string (option string) :=
  <["mrodriguez" := Some "Ms. Rodriguez"]> (<["principal" := None]> ∅).

Definition exam_id : string := "507f1f77bcf86cd799439011".

Definition exam_oid : N := 24912482966938930280208240657.

(** 2026-01-15T09:00 *)
Definition now : Z := 1768467600000000.

Definition exam : Doc.t :=
  {| Doc.message := "Exam tomorrow";
     Doc.starts_at := Some 1767225600000000;
     Doc.expires_at := 4070908800000000;
     Doc.created_by := "Ms. Rodriguez";
     Doc.created_at := 1767225600000000 |}.

Definition announcements : gmap N Doc.t := <[exam_oid := exam]> ∅.

End School.

(** ** The handlers *)

Section Handlers.

(** [datetime.fromisoformat]: the datetime a string spells, or [None]
    where the library raises. *)
Variable fromisoformat : string -> option datetime.

(** [bson.objectid.ObjectId(s)]: the identifier a string spells, or
    [None] where the library raises; [str] is [str(oid)]. *)
Variable ObjectId : string -> option oid.
Variable str : oid -> string.

(** The teacher collection: [_id] to the [username] field, if any. *)
Variable teachers_collection : gmap string (option string).

Definition _require_teacher (username : option string) : M Teacher.t :=
  match truthy username with
  | None => raise 401 "Authentication required for this action"
  | Some u =>
      match Collection.find_one teachers_collection u with
      | None => raise 401 "Invalid teacher credentials"
      | Some teacher => ret teacher
      end
  end.

(** The [query] of [get_active_announcements], on one document.  A typed
    document has its [starts_at] key; [None] is the null value, so the
    last two disjuncts coincide.  The driver encodes the [now] of the
    query like any datetime; on the documents the handlers store this
    makes no difference (see [active_query_encoded_now]). *)
Definition active_query (now : datetime) (doc : Doc.t) : bool :=
  (now <? Doc.expires_at doc)
  && (match Doc.starts_at doc with Some s => s <=? now | None => false end
      || match Doc.starts_at doc with Some _ => false | None => true end
      || match Doc.starts_at doc with Some _ => false | None => true end).

(** The dictionary appended to [results] for one document. *)
Definition to_item (p : oid * Doc.t) : Item.t :=
  {| Item.id := str (fst p);
     Item.message := Doc.message (snd p);
     Item.starts_at := Doc.starts_at (snd p);
     Item.expires_at := Doc.expires_at (snd p);
     Item.created_by := Doc.created_by (snd p) |}.

(** [now] is the value of [datetime.utcnow()]. *)
Definition get_active_announcements (now : datetime) : M (list Item.t) :=
  do docs <- query (fun c =>
    Collection.sort_expires_at (Collection.find (active_query now) c));
  ret (to_item <$> docs).

Definition get_all_announcements (teacher_username : option string)
  : M (list Item.t) :=
  do _ <- _require_teacher teacher_username;
  do docs <- query (fun c =>
    Collection.sort_expires_at (Collection.find (fun _ => true) c));
  ret (to_item <$> docs).

(** [try: datetime.fromisoformat(s) except Exception: raise 400] *)
Definition parse_or_400 (s : string) (msg : string) : M datetime :=
  match fromisoformat s with
  | Some dt => ret dt
  | None => raise 400 msg
  end.

(** [teacher.get("username", teacher.get("_id"))] *)
Definition teacher_name (teacher : Teacher.t) : string :=
  default (Teacher._id teacher) (Teacher.username teacher).

(** [now] is the value of [datetime.utcnow()] when the document is
    built.  The annotations [message: str] and [expires_at: str] are not
    enforced by the language and the body tests both with [not], so both
    are taken as optional strings: [None] is the missing argument. *)
Definition create_announcement (message expires_at : option string)
    (starts_at teacher_username : option string) (now : datetime)
  : M Created.t :=
  do teacher <- _require_teacher teacher_username;
  match truthy message, truthy expires_at with
  | Some message, Some expires_at =>
      do expires_dt <- parse_or_400 expires_at
        "Invalid expires_at format. Use ISO datetime format (e.g. YYYY-MM-DDTHH:MM)";
      do starts_dt <-
        match truthy starts_at with
        | Some starts_at =>
            do dt <- parse_or_400 starts_at
              "Invalid starts_at format. Use ISO datetime format (e.g. YYYY-MM-DDTHH:MM)";
            ret (Some dt)
        | None => ret None
        end;
      let doc :=
        {| Doc.message := message;
           Doc.starts_at := starts_dt;
           Doc.expires_at := expires_dt;
           Doc.created_by := teacher_name teacher;
           Doc.created_at := now |} in
      do inserted_id <- store (Collection.insert_one doc);
      ret {| Created.id := str inserted_id; Created.message := message |}
  | _, _ => raise 400 "Message and expires_at are required"
  end.

(** The part of [update_announcement] that fills [update]. *)
Definition build_update (message expires_at starts_at : option string)
  : M UpdateSet.t :=
  let update := UpdateSet.empty in
  let update :=
    match message with
    | Some message =>
        {| UpdateSet.message := Some message;
           UpdateSet.expires_at := UpdateSet.expires_at update;
           UpdateSet.starts_at := UpdateSet.starts_at update |}
    | None => update
    end in
  do update <-
    match expires_at with
    | Some expires_at =>
        do dt <- parse_or_400 expires_at "Invalid expires_at format";
        ret {| UpdateSet.message := UpdateSet.message update;
               UpdateSet.expires_at := Some dt;
               UpdateSet.starts_at := UpdateSet.starts_at update |}
    | None => ret update
    end;
  match starts_at with
  | Some starts_at =>
      if String.eqb starts_at "" then
        ret {| UpdateSet.message := UpdateSet.message update;
               UpdateSet.expires_at := UpdateSet.expires_at update;
               UpdateSet.starts_at := Some None |}
      else
        do dt <- parse_or_400 starts_at "Invalid starts_at format";
        ret {| UpdateSet.message := UpdateSet.message update;
               UpdateSet.expires_at := UpdateSet.expires_at update;
               UpdateSet.starts_at := Some (Some dt) |}
  | None => ret update
  end.

Definition update_announcement (ann_id : string)
    (message expires_at starts_at teacher_username : option string)
  : M Updated.t :=
  do _ <- _require_teacher teacher_username;
  match ObjectId ann_id with
  | None => raise 400 "Invalid announcement id"
  | Some oid =>
      do update <- build_update message expires_at starts_at;
      if UpdateSet.is_empty update then raise 400 "No fields to update"
      else
        do matched_count <- store (Collection.update_one oid update);
        if matched_count =? 0 then raise 404 "Announcement not found"
        else ret {| Updated.id := ann_id; Updated.updated := true |}
  end.

Definition delete_announcement (ann_id : string)
    (teacher_username : option string) : M Deleted.t :=
  do _ <- _require_teacher teacher_username;
  match ObjectId ann_id with
  | None => raise 400 "Invalid announcement id"
  | Some oid =>
      do deleted_count <- store (Collection.delete_one oid);
      if deleted_count =? 0 then raise 404 "Announcement not found"
      else ret {| Deleted.id := ann_id; Deleted.deleted := true |}
  end.

(** An announcement is active at [now], in the words of the
    specification: [expires_at] is strictly greater than the current time
    and [starts_at] is absent or not after the current time. *)
Definition is_active (now : datetime) (doc : Doc.t) : Prop :=
  now < Doc.expires_at doc
  /\ (Doc.starts_at doc = None
      \/ exists s, Doc.starts_at doc = Some s /\ s <= now).

(** The caller has no valid credential: the identifier is absent, empty,
    or names no teacher document. *)
Definition no_credential (teacher_username : option string) : Prop :=
  teacher_username = None
  \/ teacher_username = Some ""
  \/ exists u, teacher_username = Some u /\ teachers_collection !! u = None.

(** ** Running the monad *)

Lemma bind_ok {A B} (m : M A) (k : A -> M B) c a c' :
  m c = (Ok a, c') -> bind m k c = k a c'.
Proof. intros H. unfold bind. now rewrite H. Qed.

Lemma bind_raise {A B} (m : M A) (k : A -> M B) c e c' :
  m c = (Raise e, c') -> bind m k c = (Raise e, c').
Proof. intros H. unfold bind. now rewrite H. Qed.

Lemma truthy_Some s v : truthy s = Some v <-> s = Some v /\ v <> "".
Proof.
  destruct s as [[|a s]|]; simpl; split; intros H;
    try discriminate; try (destruct H; congruence).
  inversion H; subst. split; [reflexivity | discriminate].
Qed.

Lemma truthy_None s : truthy s = None <-> s = None \/ s = Some "".
Proof.
  destruct s as [[|a s]|]; simpl; split; intros H; auto;
    try discriminate; destruct H; discriminate.
Qed.

(** ** The authorization gate *)

Lemma require_teacher_raises teacher_username c :
  no_credential teacher_username ->
  exists e, _require_teacher teacher_username c = (Raise e, c)
            /\ status_code e = 401.
Proof.
  intros H. unfold _require_teacher.
  destruct (truthy teacher_username) as [u|] eqn:Ht.
  - apply truthy_Some in Ht as [-> Hne].
    destruct H as [H | [H | (u' & H & Hu)]]; try congruence.
    inversion H; subst u'. unfold Collection.find_one. rewrite Hu.
    eexists; split; reflexivity.
  - eexists; split; reflexivity.
Qed.

Lemma require_teacher_returns teacher_username c :
  ~ no_credential teacher_username ->
  exists u f, teacher_username = Some u /\ u <> ""
    /\ teachers_collection !! u = Some f
    /\ _require_teacher teacher_username c
       = (Ok {| Teacher._id := u; Teacher.username := f |}, c).
Proof.
  intros H. unfold _require_teacher.
  destruct (truthy teacher_username) as [u|] eqn:Ht.
  - apply truthy_Some in Ht as [-> Hne].
    unfold Collection.find_one.
    destruct (teachers_collection !! u) as [f|] eqn:Hu.
    + exists u, f. auto.
    + exfalso. apply H. right. right. eauto.
  - exfalso. apply H. apply truthy_None in Ht as [-> | ->].
    + now left.
    + right. now left.
Qed.

Lemma require_teacher_ok u f c :
  u <> "" -> teachers_collection !! u = Some f ->
  _require_teacher (Some u) c
  = (Ok {| Teacher._id := u; Teacher.username := f |}, c).
Proof.
  intros Hu Hf. unfold _require_teacher, Collection.find_one.
  destruct u; [congruence|]. simpl. now rewrite Hf.
Qed.

Lemma no_credential_dec teacher_username :
  no_credential teacher_username \/ ~ no_credential teacher_username.
Proof.
  unfold no_credential. destruct teacher_username as [u|]; [|auto].
  destruct (decide (u = "")) as [->|Hne]; [auto|].
  destruct (teachers_collection !! u) as [f|] eqn:Hu.
  - right. intros [H | [H | (u' & H & Hu')]]; try congruence.
  - left. right. right. eauto.
Qed.

Lemma gated_401_iff {A} (k : Teacher.t -> M A) teacher_username c :
  (forall t, ~ fails_with (fst (k t c)) Unauthenticated) ->
  fails_with (fst (bind (_require_teacher teacher_username) k c))
    Unauthenticated
  <-> no_credential teacher_username.
Proof.
  intros Hk. destruct (no_credential_dec teacher_username) as [Hn | Hn].
  - destruct (require_teacher_raises _ c Hn) as (e & He & Hs).
    rewrite (bind_raise _ _ _ _ _ He). simpl. rewrite Hs. tauto.
  - destruct (require_teacher_returns _ c Hn) as (u & f & _ & _ & _ & He).
    rewrite (bind_ok _ _ _ _ _ He). split; [|tauto].
    intros H. now apply Hk in H.
Qed.

Ltac run :=
  unfold parse_or_400, store, query, bind, ret, raise,
    Collection.insert_one, Collection.update_one, Collection.delete_one;
  simpl.

Ltac not_401 :=
  intros ?; run; repeat case_match; simplify_eq; simpl;
  unfold fails_with, kind_of_status; simpl; try tauto; try discriminate.

(** C2. Each privileged handler (list-all, create, update, delete) fails
    with Unauthenticated (status 401) if and only if the teacher
    identifier is absent, is the empty string, or names no document of
    the teacher collection; the absent and the unknown identifier give
    the same error kind. *)
Theorem unauthenticated_iff_no_credential (teacher_username : option string)
    (c : gmap oid Doc.t) :
  (fails_with (fst (get_all_announcements teacher_username c)) Unauthenticated
   <-> no_credential teacher_username)
  /\ (forall message expires_at starts_at now,
        fails_with
          (fst (create_announcement message expires_at starts_at
                  teacher_username now c)) Unauthenticated
        <-> no_credential teacher_username)
  /\ (forall ann_id message expires_at starts_at,
        fails_with
          (fst (update_announcement ann_id message expires_at starts_at
                  teacher_username c)) Unauthenticated
        <-> no_credential teacher_username)
  /\ (forall ann_id,
        fails_with (fst (delete_announcement ann_id teacher_username c))
          Unauthenticated
        <-> no_credential teacher_username).
Proof.
  split; [|split; [|split]]; intros; apply gated_401_iff.
  all: unfold build_update; not_401.
Qed.

(** ** Listing *)

#[local] Instance le_expires_at_total : Total Collection.le_expires_at.
Proof. intros a b. unfold Collection.le_expires_at. lia. Qed.

#[local] Instance le_expires_at_trans : Transitive Collection.le_expires_at.
Proof. intros a b d. unfold Collection.le_expires_at. lia. Qed.

Lemma active_query_spec now doc :
  active_query now doc = true <-> is_active now doc.
Proof.
  unfold active_query, is_active.
  rewrite andb_true_iff, Z.ltb_lt.
  destruct (Doc.starts_at doc) as [s|]; simpl.
  - rewrite !orb_false_r, Z.leb_le. split.
    + intros [H1 H2]. split; [assumption|]. right. eauto.
    + intros [H1 [H2 | (s' & Hs & H2)]]; [discriminate|].
      inversion Hs; subst. auto.
  - split; intros [H1 _]; auto.
Qed.

Lemma find_sorted_elem_of query c i doc :
  (i, doc) ∈ Collection.sort_expires_at (Collection.find query c)
  <-> c !! i = Some doc /\ query doc = true.
Proof.
  clear. unfold Collection.sort_expires_at, Collection.find.
  rewrite merge_sort_Permutation, list_elem_of_filter, elem_of_map_to_list.
  simpl. rewrite Is_true_true. tauto.
Qed.

Lemma find_sorted_NoDup query c :
  NoDup (Collection.sort_expires_at (Collection.find query c)).*1.
Proof.
  unfold Collection.sort_expires_at, Collection.find.
  rewrite merge_sort_Permutation.
  apply (sublist_NoDup _ (map_to_list c).*1).
  - apply NoDup_fst_map_to_list.
  - apply fmap_sublist, sublist_filter.
Qed.

Lemma find_sorted_by_expires_at query c :
  StronglySorted (fun a b => Item.expires_at a <= Item.expires_at b)
    (to_item <$> Collection.sort_expires_at (Collection.find query c)).
Proof.
  apply StronglySorted_fmap with (R1 := Collection.le_expires_at).
  - auto.
  - apply StronglySorted_merge_sort; apply _.
Qed.

(** C1. At every state of the announcement collection and every current
    time, list-active changes nothing and returns the stored announcements
    whose [expires_at] is strictly greater than the current time and whose
    [starts_at] is absent or not after it, each exactly once, in ascending
    order of [expires_at], each as the item
    [{id (string), message, starts_at, expires_at, created_by}]. *)
Theorem list_active_exactly_the_active (now : datetime) (c : gmap oid Doc.t) :
  exists docs : list (oid * Doc.t),
    get_active_announcements now c
    = (Ok ((fun p =>
              {| Item.id := str (fst p);
                 Item.message := Doc.message (snd p);
                 Item.starts_at := Doc.starts_at (snd p);
                 Item.expires_at := Doc.expires_at (snd p);
                 Item.created_by := Doc.created_by (snd p) |}) <$> docs), c)
    /\ NoDup docs.*1
    /\ (forall i doc, (i, doc) ∈ docs <-> c !! i = Some doc /\ is_active now doc)
    /\ StronglySorted (fun a b => Item.expires_at a <= Item.expires_at b)
         (to_item <$> docs).
Proof.
  clear fromisoformat ObjectId teachers_collection.
  exists (Collection.sort_expires_at (Collection.find (active_query now) c)).
  split; [reflexivity|]. split; [apply find_sorted_NoDup|]. split.
  - intros i doc. rewrite find_sorted_elem_of, active_query_spec. tauto.
  - apply find_sorted_by_expires_at.
Qed.

(** ** Creating *)

Lemma fresh_not_stored (c : gmap oid Doc.t) : c !! fresh (dom c) = None.
Proof. apply not_elem_of_dom, is_fresh. Qed.

(** The run of [create_announcement] on a request that passes every
    check. *)
Lemma create_runs u f m e starts_at now c expires_dt starts_dt :
  u <> "" -> teachers_collection !! u = Some f ->
  m <> "" -> e <> "" -> fromisoformat e = Some expires_dt ->
  (truthy starts_at = None /\ starts_dt = None
   \/ exists s dt, truthy starts_at = Some s
        /\ fromisoformat s = Some dt /\ starts_dt = Some dt) ->
  create_announcement (Some m) (Some e) starts_at (Some u) now c
  = (Ok {| Created.id := str (fresh (dom c)); Created.message := m |},
     <[fresh (dom c) :=
         Collection.bson_document
           {| Doc.message := m;
              Doc.starts_at := starts_dt;
              Doc.expires_at := expires_dt;
              Doc.created_by := default u f;
              Doc.created_at := now |}]> c).
Proof.
  intros Hu Hf Hm He Hp Hs. unfold create_announcement.
  rewrite (bind_ok _ _ _ _ _ (require_teacher_ok u f c Hu Hf)).
  destruct m as [|a m]; [congruence|]. destruct e as [|b e]; [congruence|].
  simpl truthy. run. rewrite Hp.
  destruct Hs as [[-> ->] | (s & dt & -> & Hd & ->)].
  - reflexivity.
  - simpl. rewrite Hd. reflexivity.
Qed.

Section Parseable.

(** The empty string spells no datetime: a parseable string is not
    empty. *)
Hypothesis fromisoformat_empty : fromisoformat "" = None.

(** C3. A create call with a valid teacher credential, a non-empty
    message, a parseable [expires_at] and a [starts_at] that is absent,
    empty or parseable stores, under an identifier that was free, one
    document whose [created_by] is the teacher's username (the teacher's
    [_id] when the teacher document has no username field) and whose
    [created_at] is the current time at the store's precision, its
    milliseconds, changes no other document, and returns [{id, message}]
    with [id] the string of that identifier. *)
Theorem create_persists_document (u : string) (f : option string)
    (m e : string) (starts_at : option string) (now : datetime)
    (c : gmap oid Doc.t) (expires_dt : datetime) :
  u <> "" -> teachers_collection !! u = Some f ->
  m <> "" -> fromisoformat e = Some expires_dt ->
  (starts_at = None \/ starts_at = Some ""
   \/ exists s, starts_at = Some s /\ is_Some (fromisoformat s)) ->
  exists i doc,
    create_announcement (Some m) (Some e) starts_at (Some u) now c
    = (Ok {| Created.id := str i; Created.message := m |}, <[i := doc]> c)
    /\ c !! i = None
    /\ Doc.message doc = m
    /\ Doc.expires_at doc = Collection.bson_datetime expires_dt
    /\ Doc.created_by doc = match f with Some username => username | None => u end
    /\ Doc.created_at doc = Collection.bson_datetime now.
Proof.
  intros Hu Hf Hm Hp Hs.
  assert (He : e <> "") by (intros ->; congruence).
  assert (exists starts_dt,
    truthy starts_at = None /\ starts_dt = None
    \/ exists s dt, truthy starts_at = Some s
         /\ fromisoformat s = Some dt /\ starts_dt = Some dt) as [starts_dt Hd].
  { destruct Hs as [-> | [-> | (s & -> & [dt Hdt])]].
    - exists None. now left.
    - exists None. now left.
    - destruct s as [|a s]; [congruence|].
      exists (Some dt). right. exists (String a s), dt. auto. }
  eexists _, _. split.
  - apply (create_runs u f m e starts_at now c expires_dt starts_dt); auto.
  - simpl. destruct f; auto using fresh_not_stored.
Qed.

(** C10. A create call with a valid teacher credential, a non-empty
    message, a parseable [expires_at] and [starts_at] given as the empty
    string succeeds and stores [starts_at] as null: the empty string is
    taken as an absent [starts_at], not as a timestamp that fails to
    parse. *)
Theorem create_empty_starts_at_is_null (u : string) (f : option string)
    (m e : string) (now : datetime) (c : gmap oid Doc.t)
    (expires_dt : datetime) :
  u <> "" -> teachers_collection !! u = Some f ->
  m <> "" -> fromisoformat e = Some expires_dt ->
  exists i doc,
    create_announcement (Some m) (Some e) (Some "") (Some u) now c
    = (Ok {| Created.id := str i; Created.message := m |}, <[i := doc]> c)
    /\ c !! i = None
    /\ Doc.starts_at doc = None
    /\ create_announcement (Some m) (Some e) (Some "") (Some u) now c
       = create_announcement (Some m) (Some e) None (Some u) now c.
Proof.
  intros Hu Hf Hm Hp.
  assert (He : e <> "") by (intros ->; congruence).
  eexists _, _. split; [|split; [|split]].
  - apply (create_runs u f m e (Some "") now c expires_dt None); auto.
  - apply fresh_not_stored.
  - reflexivity.
  - rewrite (create_runs u f m e (Some "") now c expires_dt None),
      (create_runs u f m e None now c expires_dt None); auto.
Qed.

End Parseable.

(** C5. A create call with a valid teacher credential fails with
    BadRequest, and stores nothing, when [message] or [expires_at] is
    missing or empty, when [expires_at] does not parse, or when a
    non-empty [starts_at] does not parse. *)
Theorem create_bad_request (u : string) (f : option string)
    (message expires_at starts_at : option string) (now : datetime)
    (c : gmap oid Doc.t) :
  u <> "" -> teachers_collection !! u = Some f ->
  (message = None \/ message = Some ""
   \/ expires_at = None \/ expires_at = Some ""
   \/ (exists e, expires_at = Some e /\ fromisoformat e = None)
   \/ (exists s, starts_at = Some s /\ s <> "" /\ fromisoformat s = None)) ->
  fails_with
    (fst (create_announcement message expires_at starts_at (Some u) now c))
    BadRequest
  /\ snd (create_announcement message expires_at starts_at (Some u) now c) = c.
Proof.
  intros Hu Hf Hbad. unfold create_announcement.
  rewrite (bind_ok _ _ _ _ _ (require_teacher_ok u f c Hu Hf)).
  destruct (truthy message) as [m|] eqn:Hm; [|split; reflexivity].
  destruct (truthy expires_at) as [e|] eqn:He; [|split; reflexivity].
  apply truthy_Some in Hm as [-> Hm]. apply truthy_Some in He as [-> He].
  run. destruct (fromisoformat e) as [expires_dt|] eqn:Hp;
    [|split; reflexivity].
  destruct Hbad as [H | [H | [H | [H | [(e' & H & Hn) | (s & -> & Hs & Hn)]]]]];
    try congruence.
  destruct s as [|a s]; [congruence|]. simpl. rewrite Hn.
  split; reflexivity.
Qed.

(** ** Updating *)

(** What [build_update] returns: it never touches the collection, raises
    only with status 400, and otherwise holds exactly the supplied
    fields. *)
Lemma build_update_spec message expires_at starts_at c :
  snd (build_update message expires_at starts_at c) = c
  /\ match fst (build_update message expires_at starts_at c) with
     | Raise e =>
         status_code e = 400
         /\ ((exists x, expires_at = Some x /\ fromisoformat x = None)
             \/ (exists x, starts_at = Some x /\ x <> ""
                   /\ fromisoformat x = None))
     | Ok update =>
         UpdateSet.message update = message
         /\ UpdateSet.expires_at update = (expires_at ≫= fromisoformat)
         /\ match expires_at with
            | Some x => is_Some (fromisoformat x)
            | None => True
            end
         /\ match starts_at with
            | None => UpdateSet.starts_at update = None
            | Some "" => UpdateSet.starts_at update = Some None
            | Some x =>
                exists dt, fromisoformat x = Some dt
                  /\ UpdateSet.starts_at update = Some (Some dt)
            end
     end.
Proof.
  unfold build_update. run.
  destruct message as [m|], expires_at as [x|]; simpl;
    try (destruct (fromisoformat x) as [dt|] eqn:Hx; simpl);
    destruct starts_at as [[|a y]|]; simpl;
    try (destruct (fromisoformat (String a y)) as [dt'|] eqn:Hy; simpl);
    repeat split; eauto 8; try (right; eexists; repeat split; eauto; congruence).
Qed.

(** The run of [update_announcement] once the gate is passed. *)
Lemma update_after_gate ann_id message expires_at starts_at teacher_username c :
  ~ no_credential teacher_username ->
  update_announcement ann_id message expires_at starts_at teacher_username c
  = match ObjectId ann_id with
    | None =>
        (Raise {| status_code := 400; detail := "Invalid announcement id" |}, c)
    | Some i =>
        match fst (build_update message expires_at starts_at c) with
        | Raise e => (Raise e, c)
        | Ok update =>
            if UpdateSet.is_empty update
            then (Raise {| status_code := 400;
                           detail := "No fields to update" |}, c)
            else
              match c !! i with
              | Some d =>
                  (Ok {| Updated.id := ann_id; Updated.updated := true |},
                   <[i := Collection.set_fields update d]> c)
              | None =>
                  (Raise {| status_code := 404;
                            detail := "Announcement not found" |}, c)
              end
        end
    end.
Proof.
  intros Hn.
  destruct (require_teacher_returns _ c Hn) as (u & f & _ & _ & _ & He).
  unfold update_announcement. rewrite (bind_ok _ _ _ _ _ He).
  destruct (ObjectId ann_id) as [i|]; [|reflexivity].
  destruct (build_update_spec message expires_at starts_at c) as [Hc _].
  unfold bind at 1.
  destruct (build_update message expires_at starts_at c) as [[update|e] c1].
  - simpl in Hc. subst c1. simpl.
    destruct (UpdateSet.is_empty update); [reflexivity|].
    run. destruct (c !! i); reflexivity.
  - simpl in Hc. subst c1. reflexivity.
Qed.

Lemma gate_passed_of_ok {A} (k : Teacher.t -> M A) teacher_username c r c' :
  bind (_require_teacher teacher_username) k c = (Ok r, c') ->
  ~ no_credential teacher_username.
Proof.
  intros H Hn. destruct (require_teacher_raises _ c Hn) as (e & He & _).
  rewrite (bind_raise _ _ _ _ _ He) in H. discriminate.
Qed.

(** C4. A successful update changes, in the announcement it names, the
    supplied fields only: a supplied [message] is stored as given, a
    supplied timestamp is stored as parsed, at the store's precision (its
    milliseconds), an empty [starts_at] is stored as null; an unsupplied
    field of that announcement keeps its value, [created_by] and
    [created_at] are never changed, every other announcement is
    unchanged, and the result is [{id, updated: true}]. *)
Theorem update_changes_only_supplied_fields (ann_id : string)
    (message expires_at starts_at teacher_username : option string)
    (c c' : gmap oid Doc.t) (r : Updated.t) :
  update_announcement ann_id message expires_at starts_at teacher_username c
  = (Ok r, c') ->
  r = {| Updated.id := ann_id; Updated.updated := true |}
  /\ exists i doc doc',
       ObjectId ann_id = Some i
       /\ c !! i = Some doc
       /\ c' = <[i := doc']> c
       /\ (forall j, j <> i -> c' !! j = c !! j)
       /\ match message with
          | Some m => Doc.message doc' = m
          | None => Doc.message doc' = Doc.message doc
          end
       /\ match expires_at with
          | Some e =>
              option_map Collection.bson_datetime (fromisoformat e)
              = Some (Doc.expires_at doc')
          | None => Doc.expires_at doc' = Doc.expires_at doc
          end
       /\ match starts_at with
          | Some "" => Doc.starts_at doc' = None
          | Some s =>
              is_Some (Doc.starts_at doc')
              /\ option_map Collection.bson_datetime (fromisoformat s)
                 = Doc.starts_at doc'
          | None => Doc.starts_at doc' = Doc.starts_at doc
          end
       /\ Doc.created_by doc' = Doc.created_by doc
       /\ Doc.created_at doc' = Doc.created_at doc.
Proof.
  intros H.
  assert (Hn : ~ no_credential teacher_username)
    by (eapply gate_passed_of_ok; exact H).
  rewrite (update_after_gate _ _ _ _ _ _ Hn) in H.
  destruct (ObjectId ann_id) as [i|]; [|discriminate].
  destruct (build_update_spec message expires_at starts_at c) as [_ Hb].
  destruct (fst (build_update message expires_at starts_at c))
    as [update|e]; [|discriminate].
  destruct (UpdateSet.is_empty update); [discriminate|].
  destruct (c !! i) as [doc|] eqn:Hi; [|discriminate].
  inversion H; subst r c'. split; [reflexivity|].
  destruct Hb as (Hm & He & Hep & Hs).
  exists i, doc, (Collection.set_fields update doc).
  split; [reflexivity|]. split; [exact Hi|]. split; [reflexivity|].
  split; [intros j Hj; now apply lookup_insert_ne|].
  unfold Collection.set_fields; simpl. rewrite Hm, He.
  split; [destruct message; reflexivity|].
  split.
  { destruct expires_at as [e|]; [|reflexivity].
    destruct Hep as [dt Hdt]. simpl. now rewrite Hdt. }
  split; [|auto].
  destruct starts_at as [[|a s]|].
  - now rewrite Hs.
  - destruct Hs as (dt & Hdt & ->). simpl. rewrite Hdt. split; eauto.
  - now rewrite Hs.
Qed.

Lemma credential_ok u f :
  u <> "" -> teachers_collection !! u = Some f -> ~ no_credential (Some u).
Proof.
  intros Hu Hf [H | [H | (u' & H & Hu')]]; try congruence.
Qed.

Lemma get_all_after_gate teacher_username c :
  ~ no_credential teacher_username ->
  get_all_announcements teacher_username c
  = (Ok (to_item <$>
           Collection.sort_expires_at (Collection.find (fun _ => true) c)), c).
Proof.
  intros Hn.
  destruct (require_teacher_returns _ c Hn) as (u & f & _ & _ & _ & He).
  unfold get_all_announcements. now rewrite (bind_ok _ _ _ _ _ He).
Qed.

(** C6. An update call with a valid credential, the well-formed
    identifier of a stored announcement, [starts_at] given as the empty
    string and an [expires_at] that is not supplied or parses succeeds
    without parsing [starts_at] and sets the stored [starts_at] to null;
    list-all then shows that announcement with [starts_at] null. *)
Theorem update_empty_starts_at_clears (u : string) (f : option string)
    (ann_id : string) (i : oid) (doc : Doc.t)
    (message expires_at : option string) (c : gmap oid Doc.t) :
  u <> "" -> teachers_collection !! u = Some f ->
  ObjectId ann_id = Some i -> c !! i = Some doc ->
  (expires_at = None
   \/ exists e, expires_at = Some e /\ is_Some (fromisoformat e)) ->
  exists doc' docs,
    update_announcement ann_id message expires_at (Some "") (Some u) c
    = (Ok {| Updated.id := ann_id; Updated.updated := true |},
       <[i := doc']> c)
    /\ Doc.starts_at doc' = None
    /\ get_all_announcements (Some u) (<[i := doc']> c)
       = (Ok (to_item <$> docs), <[i := doc']> c)
    /\ (i, doc') ∈ docs
    /\ (forall d, (i, d) ∈ docs -> Item.starts_at (to_item (i, d)) = None).
Proof.
  intros Hu Hf Hi Hd Hexp.
  pose proof (credential_ok u f Hu Hf) as Hn.
  rewrite (update_after_gate _ _ _ _ _ _ Hn), Hi.
  destruct (build_update_spec message expires_at (Some "") c) as [_ Hb].
  destruct (fst (build_update message expires_at (Some "") c))
    as [update|e].
  - destruct Hb as (Hm & He & _ & Hs).
    assert (UpdateSet.is_empty update = false) as ->.
    { unfold UpdateSet.is_empty. rewrite Hs.
      destruct (UpdateSet.message update), (UpdateSet.expires_at update);
        reflexivity. }
    rewrite Hd.
    exists (Collection.set_fields update doc),
      (Collection.sort_expires_at
         (Collection.find (fun _ => true)
            (<[i := Collection.set_fields update doc]> c))).
    split; [reflexivity|].
    assert (Hnull : Doc.starts_at (Collection.set_fields update doc) = None)
      by (unfold Collection.set_fields; simpl; now rewrite Hs).
    split; [exact Hnull|].
    split; [now apply get_all_after_gate|].
    split.
    + apply find_sorted_elem_of. split; [apply lookup_insert_eq|reflexivity].
    + intros d Hin. apply find_sorted_elem_of in Hin as [Hin _].
      rewrite lookup_insert_eq in Hin. inversion Hin; subst d.
      exact Hnull.
  - exfalso. destruct Hb as [_ [(x & Hx & Hp) | (x & Hx & Hne & _)]].
    + destruct Hexp as [-> | (e' & -> & [dt Hdt])]; [discriminate|].
      inversion Hx; subst. congruence.
    + inversion Hx; subst. congruence.
Qed.

(** C7. An update call with a valid credential and a well-formed
    identifier fails with BadRequest when none of [message],
    [expires_at], [starts_at] is supplied, and fails with NotFound when
    at least one of them is supplied, every supplied timestamp parses
    (or is the empty [starts_at]), and no announcement is stored under
    the identifier; the collection is unchanged in both cases. *)
Theorem update_nothing_supplied_or_not_found (u : string)
    (f : option string) (ann_id : string) (i : oid)
    (message expires_at starts_at : option string) (c : gmap oid Doc.t)
    (k : error_kind) :
  u <> "" -> teachers_collection !! u = Some f ->
  ObjectId ann_id = Some i ->
  (message = None /\ expires_at = None /\ starts_at = None
   /\ k = BadRequest)
  \/ ((is_Some message \/ is_Some expires_at \/ is_Some starts_at)
      /\ (expires_at = None
          \/ exists e, expires_at = Some e /\ is_Some (fromisoformat e))
      /\ (starts_at = None \/ starts_at = Some ""
          \/ exists s, starts_at = Some s /\ is_Some (fromisoformat s))
      /\ c !! i = None
      /\ k = NotFound) ->
  fails_with
    (fst (update_announcement ann_id message expires_at starts_at
            (Some u) c)) k
  /\ snd (update_announcement ann_id message expires_at starts_at
            (Some u) c) = c.
Proof.
  intros Hu Hf Hi Hcase.
  rewrite (update_after_gate _ _ _ _ _ _ (credential_ok u f Hu Hf)), Hi.
  destruct Hcase as [(-> & -> & -> & ->) | (Hsup & Hexp & Hst & Hc & ->)].
  - split; reflexivity.
  - destruct (build_update_spec message expires_at starts_at c) as [_ Hb].
    destruct (fst (build_update message expires_at starts_at c))
      as [update|e].
    + destruct Hb as (Hm & He & Hep & Hs).
      assert (UpdateSet.is_empty update = false) as ->.
      { unfold UpdateSet.is_empty. rewrite Hm, He.
        destruct message as [m|]; [reflexivity|].
        destruct expires_at as [e|].
        - destruct Hep as [dt Hdt]. simpl. rewrite Hdt. reflexivity.
        - simpl. destruct starts_at as [[|a s]|].
          + now rewrite Hs.
          + destruct Hs as (dt & _ & ->). reflexivity.
          + destruct Hsup as [[? H] | [[? H] | [? H]]]; discriminate. }
      rewrite Hc. split; reflexivity.
    + exfalso. destruct Hb as [_ [(x & Hx & Hp) | (x & Hx & Hne & Hp)]].
      * destruct Hexp as [-> | (e' & -> & [dt Hdt])]; [discriminate|].
        inversion Hx; subst. congruence.
      * destruct Hst as [-> | [-> | (s & -> & [dt Hdt])]];
          [discriminate| |]; inversion Hx; subst; congruence.
Qed.

(** ** Deleting *)

Lemma delete_after_gate ann_id teacher_username c :
  ~ no_credential teacher_username ->
  delete_announcement ann_id teacher_username c
  = match ObjectId ann_id with
    | None =>
        (Raise {| status_code := 400; detail := "Invalid announcement id" |}, c)
    | Some i =>
        match c !! i with
        | Some _ =>
            (Ok {| Deleted.id := ann_id; Deleted.deleted := true |},
             delete i c)
        | None =>
            (Raise {| status_code := 404;
                      detail := "Announcement not found" |}, c)
        end
    end.
Proof.
  intros Hn.
  destruct (require_teacher_returns _ c Hn) as (u & f & _ & _ & _ & He).
  unfold delete_announcement. rewrite (bind_ok _ _ _ _ _ He).
  destruct (ObjectId ann_id) as [i|]; [|reflexivity].
  run. destruct (c !! i); reflexivity.
Qed.

(** C8. A delete call with a valid credential and a well-formed
    identifier: when an announcement is stored under the identifier, the
    call removes that record and no other and returns
    [{id, deleted: true}], and the same call made again fails with
    NotFound; when none is stored, the call fails with NotFound and
    changes nothing. *)
Theorem delete_removes_then_not_found (u : string) (f : option string)
    (ann_id : string) (i : oid) (c : gmap oid Doc.t) :
  u <> "" -> teachers_collection !! u = Some f ->
  ObjectId ann_id = Some i ->
  match c !! i with
  | Some _ =>
      exists c',
        delete_announcement ann_id (Some u) c
        = (Ok {| Deleted.id := ann_id; Deleted.deleted := true |}, c')
        /\ c' !! i = None
        /\ (forall j, j <> i -> c' !! j = c !! j)
        /\ fails_with (fst (delete_announcement ann_id (Some u) c')) NotFound
        /\ snd (delete_announcement ann_id (Some u) c') = c'
  | None =>
      fails_with (fst (delete_announcement ann_id (Some u) c)) NotFound
      /\ snd (delete_announcement ann_id (Some u) c) = c
  end.
Proof.
  intros Hu Hf Hi.
  pose proof (credential_ok u f Hu Hf) as Hn.
  destruct (c !! i) as [doc|] eqn:Hd.
  - exists (delete i c).
    rewrite !(delete_after_gate _ _ _ Hn), Hi, Hd, lookup_delete_eq.
    split; [reflexivity|]. split; [reflexivity|].
    split; [intros j Hj; now apply lookup_delete_ne|].
    split; reflexivity.
  - rewrite (delete_after_gate _ _ _ Hn), Hi, Hd. split; reflexivity.
Qed.

(** An update whose [message] is the empty string passes every check of
    [update_announcement] and stores the empty message. *)
Lemma update_stores_empty_message u f ann_id i doc c :
  u <> "" -> teachers_collection !! u = Some f ->
  ObjectId ann_id = Some i -> c !! i = Some doc ->
  update_announcement ann_id (Some "") None None (Some u) c
  = (Ok {| Updated.id := ann_id; Updated.updated := true |},
     <[i := {| Doc.message := "";
               Doc.starts_at := Doc.starts_at doc;
               Doc.expires_at := Doc.expires_at doc;
               Doc.created_by := Doc.created_by doc;
               Doc.created_at := Doc.created_at doc |}]> c).
Proof.
  intros Hu Hf Hi Hd.
  rewrite (update_after_gate _ _ _ _ _ _ (credential_ok u f Hu Hf)), Hi.
  simpl. now rewrite Hd.
Qed.

(** ** Further properties of the handlers *)

(** Every property of a gated handler's outcome follows from the same
    property of a 401 raise and of the handler's body. *)
Lemma gated_cases {A} (k : Teacher.t -> M A) teacher_username c
    (P : result A * gmap oid Doc.t -> Prop) :
  (forall e, status_code e = 401 -> P (Raise e, c)) ->
  (forall t, P (k t c)) ->
  P (bind (_require_teacher teacher_username) k c).
Proof.
  intros Hraise Hbody.
  destruct (no_credential_dec teacher_username) as [Hn | Hn].
  - destruct (require_teacher_raises _ c Hn) as (e & He & Hs).
    rewrite (bind_raise _ _ _ _ _ He). auto.
  - destruct (require_teacher_returns _ c Hn) as (u & f & _ & _ & _ & He).
    rewrite (bind_ok _ _ _ _ _ He). auto.
Qed.

Ltac body_cases :=
  intros ?; unfold build_update;
  repeat first [progress run | case_match]; simplify_eq; simpl; auto.

(** X3. A privileged handler that raises leaves the announcement
    collection as it was: no handler stores, changes or removes anything
    and then fails. *)
Theorem raise_changes_nothing (teacher_username : option string)
    (c : gmap oid Doc.t) :
  match get_all_announcements teacher_username c with
  | (Raise _, c') => c' = c
  | (Ok _, _) => True
  end
  /\ (forall message expires_at starts_at now,
        match create_announcement message expires_at starts_at
                teacher_username now c with
        | (Raise _, c') => c' = c
        | (Ok _, _) => True
        end)
  /\ (forall ann_id message expires_at starts_at,
        match update_announcement ann_id message expires_at starts_at
                teacher_username c with
        | (Raise _, c') => c' = c
        | (Ok _, _) => True
        end)
  /\ (forall ann_id,
        match delete_announcement ann_id teacher_username c with
        | (Raise _, c') => c' = c
        | (Ok _, _) => True
        end).
Proof.
  split; [|split; [|split]]; intros;
    apply (gated_cases _ _ _
             (fun r => match r with
                       | (Raise _, c') => c' = c
                       | (Ok _, _) => True
                       end));
    auto; body_cases.
Qed.

(** X13. The handlers raise only with the status codes of their own
    checks: list-all only with 401, create only with 401 or 400 (never
    404), update and delete only with 401, 400 or 404. *)
Theorem handlers_raise_only_their_statuses (teacher_username : option string)
    (c : gmap oid Doc.t) :
  match fst (get_all_announcements teacher_username c) with
  | Raise e => status_code e = 401
  | Ok _ => True
  end
  /\ (forall message expires_at starts_at now,
        match fst (create_announcement message expires_at starts_at
                     teacher_username now c) with
        | Raise e => status_code e = 401 \/ status_code e = 400
        | Ok _ => True
        end)
  /\ (forall ann_id message expires_at starts_at,
        match fst (update_announcement ann_id message expires_at starts_at
                     teacher_username c) with
        | Raise e =>
            status_code e = 401 \/ status_code e = 400
            \/ status_code e = 404
        | Ok _ => True
        end)
  /\ (forall ann_id,
        match fst (delete_announcement ann_id teacher_username c) with
        | Raise e =>
            status_code e = 401 \/ status_code e = 400
            \/ status_code e = 404
        | Ok _ => True
        end).
Proof.
  split; [|split; [|split]]; intros.
  - apply (gated_cases _ _ _
             (fun r => match fst r with
                       | Raise e => status_code e = 401
                       | Ok _ => True
                       end)); [intros; simpl; lia|]; body_cases;
      try (simpl in *; simplify_eq; simpl; lia).
  - apply (gated_cases _ _ _
             (fun r => match fst r with
                       | Raise e => status_code e = 401 \/ status_code e = 400
                       | Ok _ => True
                       end)); [intros; simpl; lia|]; body_cases;
      try (simpl in *; simplify_eq; simpl; lia).
  - apply (gated_cases _ _ _
             (fun r => match fst r with
                       | Raise e =>
                           status_code e = 401 \/ status_code e = 400
                           \/ status_code e = 404
                       | Ok _ => True
                       end)); [intros; simpl; lia|]; body_cases;
      try (simpl in *; simplify_eq; simpl; lia).
  - apply (gated_cases _ _ _
             (fun r => match fst r with
                       | Raise e =>
                           status_code e = 401 \/ status_code e = 400
                           \/ status_code e = 404
                       | Ok _ => True
                       end)); [intros; simpl; lia|]; body_cases;
      try (simpl in *; simplify_eq; simpl; lia).
Qed.

(** X10. An update call never adds or removes an announcement: whatever
    its arguments and outcome, the stored identifiers are the same
    afterwards (there is no upsert). *)
Theorem update_keeps_identifiers (ann_id : string)
    (message expires_at starts_at teacher_username : option string)
    (c : gmap oid Doc.t) :
  dom (snd (update_announcement ann_id message expires_at starts_at
              teacher_username c)) = dom c
  /\ size (snd (update_announcement ann_id message expires_at starts_at
                  teacher_username c)) = size c.
Proof.
  apply (gated_cases _ _ _
           (fun r => dom (snd r) = dom c /\ size (snd r) = size c)); auto.
  body_cases; try (split; reflexivity);
    (split; [apply dom_insert_lookup_L | apply map_size_insert_Some]); eauto.
Qed.

(** X6. The gate is the first check of every privileged handler: without
    a valid credential each of them raises the gate's exception, whatever
    the other arguments are (a malformed identifier or an unparseable
    timestamp is not looked at).  The detail tells the two causes apart:
    "Authentication required for this action" for an absent or empty
    identifier, "Invalid teacher credentials" for an unknown one. *)
Theorem gate_is_checked_first (teacher_username : option string)
    (c : gmap oid Doc.t) :
  no_credential teacher_username ->
  exists e,
    status_code e = 401
    /\ detail e
       = match truthy teacher_username with
         | None => "Authentication required for this action"
         | Some _ => "Invalid teacher credentials"
         end
    /\ get_all_announcements teacher_username c = (Raise e, c)
    /\ (forall message expires_at starts_at now,
          create_announcement message expires_at starts_at
            teacher_username now c = (Raise e, c))
    /\ (forall ann_id message expires_at starts_at,
          update_announcement ann_id message expires_at starts_at
            teacher_username c = (Raise e, c))
    /\ (forall ann_id,
          delete_announcement ann_id teacher_username c = (Raise e, c)).
Proof.
  intros Hn.
  assert (exists e,
    status_code e = 401
    /\ detail e = match truthy teacher_username with
                  | None => "Authentication required for this action"
                  | Some _ => "Invalid teacher credentials"
                  end
    /\ _require_teacher teacher_username c = (Raise e, c))
    as (e & Hs & Hd & He).
  { unfold _require_teacher.
    destruct (truthy teacher_username) as [u|] eqn:Ht.
    - apply truthy_Some in Ht as [-> Hne].
      destruct Hn as [H | [H | (u' & H & Hu)]]; try congruence.
      inversion H; subst u'. unfold Collection.find_one. rewrite Hu.
      eexists. repeat split; reflexivity.
    - eexists. repeat split; reflexivity. }
  exists e. split; [exact Hs|]. split; [exact Hd|].
  split; [|split; [|split]]; intros; now apply bind_raise.
Qed.

(** X4. With a valid credential, an identifier that [ObjectId] refuses
    makes update and delete raise 400 "Invalid announcement id" and
    change nothing, whatever fields the update supplies. *)
Theorem malformed_identifier_is_bad_request (u : string)
    (f : option string) (ann_id : string)
    (message expires_at starts_at : option string) (c : gmap oid Doc.t) :
  u <> "" -> teachers_collection !! u = Some f ->
  ObjectId ann_id = None ->
  update_announcement ann_id message expires_at starts_at (Some u) c
  = (Raise {| status_code := 400; detail := "Invalid announcement id" |}, c)
  /\ delete_announcement ann_id (Some u) c
     = (Raise {| status_code := 400; detail := "Invalid announcement id" |},
        c).
Proof.
  intros Hu Hf Hi. pose proof (credential_ok u f Hu Hf) as Hn.
  rewrite (update_after_gate _ _ _ _ _ _ Hn), (delete_after_gate _ _ _ Hn), Hi.
  split; reflexivity.
Qed.

(** X5. With a valid credential and a well-formed identifier, an update
    that supplies an [expires_at] that does not parse, or a non-empty
    [starts_at] that does not parse, fails with BadRequest and changes
    nothing, whether or not an announcement is stored under the
    identifier: the timestamps are checked before the store is asked. *)
Theorem update_unparseable_timestamp_is_bad_request (u : string)
    (f : option string) (ann_id : string) (i : oid)
    (message expires_at starts_at : option string) (c : gmap oid Doc.t) :
  u <> "" -> teachers_collection !! u = Some f ->
  ObjectId ann_id = Some i ->
  (exists e, expires_at = Some e /\ fromisoformat e = None)
  \/ (exists s, starts_at = Some s /\ s <> "" /\ fromisoformat s = None) ->
  fails_with
    (fst (update_announcement ann_id message expires_at starts_at
            (Some u) c)) BadRequest
  /\ snd (update_announcement ann_id message expires_at starts_at
            (Some u) c) = c.
Proof.
  intros Hu Hf Hi Hbad.
  rewrite (update_after_gate _ _ _ _ _ _ (credential_ok u f Hu Hf)), Hi.
  destruct (build_update_spec message expires_at starts_at c) as [_ Hb].
  destruct (fst (build_update message expires_at starts_at c))
    as [update|e].
  - exfalso. destruct Hb as (_ & _ & Hep & Hs).
    destruct Hbad as [(x & -> & Hx) | (x & -> & Hne & Hx)].
    + destruct Hep as [dt Hdt]. congruence.
    + destruct x as [|a x]; [congruence|].
      destruct Hs as (dt & Hdt & _). congruence.
  - destruct Hb as [Hs _]. simpl. unfold kind_of_status. rewrite Hs.
    split; reflexivity.
Qed.

(** ** Listing everything *)

Lemma find_everything_length (c : gmap oid Doc.t) :
  length (Collection.find (fun _ => true) c) = size c.
Proof.
  clear. unfold Collection.find. rewrite <- length_map_to_list.
  induction (map_to_list c) as [|p l IH]; [reflexivity|].
  rewrite filter_cons_True by exact I. exact (f_equal S IH).
Qed.

(** X1. With a valid credential, list-all changes nothing and returns
    every stored announcement, active or not, exactly once, in ascending
    order of [expires_at]; the list is as long as the collection is
    large. *)
Theorem list_all_returns_every_announcement (u : string)
    (f : option string) (c : gmap oid Doc.t) :
  u <> "" -> teachers_collection !! u = Some f ->
  exists docs : list (oid * Doc.t),
    get_all_announcements (Some u) c = (Ok (to_item <$> docs), c)
    /\ NoDup docs.*1
    /\ (forall i doc, (i, doc) ∈ docs <-> c !! i = Some doc)
    /\ StronglySorted (fun a b => Item.expires_at a <= Item.expires_at b)
         (to_item <$> docs)
    /\ length (to_item <$> docs) = size c.
Proof.
  clear fromisoformat ObjectId. intros Hu Hf.
  exists (Collection.sort_expires_at (Collection.find (fun _ => true) c)).
  split; [apply get_all_after_gate, (credential_ok u f Hu Hf)|].
  split; [apply find_sorted_NoDup|]. split; [|split].
  - intros i doc. rewrite find_sorted_elem_of. tauto.
  - apply find_sorted_by_expires_at.
  - rewrite length_fmap. unfold Collection.sort_expires_at.
    rewrite merge_sort_Permutation. apply find_everything_length.
Qed.

(** X2. Every item list-active returns is an item list-all returns at the
    same state: the public list is a part of the privileged one. *)
Theorem list_active_within_list_all (u : string) (f : option string)
    (now : datetime) (c : gmap oid Doc.t) :
  u <> "" -> teachers_collection !! u = Some f ->
  exists active all,
    get_active_announcements now c = (Ok active, c)
    /\ get_all_announcements (Some u) c = (Ok all, c)
    /\ active ⊆ all
    /\ (length active <= length all)%nat.
Proof.
  clear fromisoformat ObjectId. intros Hu Hf.
  assert (Hsub : forall p,
    p ∈ Collection.sort_expires_at (Collection.find (active_query now) c) ->
    p ∈ Collection.sort_expires_at (Collection.find (fun _ => true) c)).
  { intros [i doc]. rewrite !find_sorted_elem_of. tauto. }
  eexists _, _. split; [reflexivity|].
  split; [apply get_all_after_gate, (credential_ok u f Hu Hf)|]. split.
  - intros item Hin. apply list_elem_of_fmap in Hin as (p & -> & Hp).
    apply list_elem_of_fmap_2. auto.
  - rewrite !length_fmap.
    apply Nat.le_trans with (length (Collection.find (active_query now) c)).
    + unfold Collection.sort_expires_at.
      now rewrite merge_sort_Permutation.
    + unfold Collection.sort_expires_at.
      rewrite (merge_sort_Permutation _ (Collection.find (fun _ => true) c)).
      rewrite find_everything_length, <- length_map_to_list.
      apply length_filter.
Qed.

(** X12. Every item list-active returns at time [now] has
    [now < expires_at], and a [starts_at] that is null or satisfies
    [starts_at <= now]; so an announcement whose [starts_at] is not
    before its [expires_at] is never returned. *)
Theorem listed_active_items_are_in_their_window (now : datetime)
    (c : gmap oid Doc.t) :
  exists items,
    get_active_announcements now c = (Ok items, c)
    /\ Forall (fun item =>
                 now < Item.expires_at item
                 /\ match Item.starts_at item with
                    | Some s => s <= now /\ s < Item.expires_at item
                    | None => True
                    end) items.
Proof.
  clear fromisoformat ObjectId teachers_collection.
  eexists. split; [reflexivity|].
  apply Forall_forall. intros item Hin.
  apply list_elem_of_fmap in Hin as ([i doc] & -> & Hp).
  apply find_sorted_elem_of in Hp as [_ Hq].
  apply active_query_spec in Hq as [Hlt Hs]. simpl. split; [exact Hlt|].
  destruct (Doc.starts_at doc) as [s|]; [|exact I].
  destruct Hs as [Hs | (s' & Hs & Hle)]; [discriminate|].
  inversion Hs; subst. lia.
Qed.

(** ** Sequences of calls *)

(** X7. An announcement created without a [starts_at] (absent or empty)
    is returned by list-active at every time before its stored
    [expires_at], which is the parsed one at the store's precision (its
    milliseconds), under the identifier that create returned. *)
Theorem created_announcement_is_listed_active (u : string)
    (f : option string) (m e : string) (starts_at : option string)
    (now later : datetime) (c : gmap oid Doc.t) (expires_dt : datetime) :
  u <> "" -> teachers_collection !! u = Some f ->
  m <> "" -> e <> "" -> fromisoformat e = Some expires_dt ->
  starts_at = None \/ starts_at = Some "" ->
  later < Collection.bson_datetime expires_dt ->
  exists i c' items,
    create_announcement (Some m) (Some e) starts_at (Some u) now c
    = (Ok {| Created.id := str i; Created.message := m |}, c')
    /\ get_active_announcements later c' = (Ok items, c')
    /\ {| Item.id := str i;
          Item.message := m;
          Item.starts_at := None;
          Item.expires_at := Collection.bson_datetime expires_dt;
          Item.created_by :=
            match f with Some username => username | None => u end |}
       ∈ items.
Proof.
  intros Hu Hf Hm He Hp Hs Hlt.
  eexists _, _, _. split; [|split; [reflexivity|]].
  - apply (create_runs u f m e starts_at now c expires_dt None); auto.
    left. split; [|reflexivity]. now destruct Hs as [-> | ->].
  - apply list_elem_of_fmap.
    exists (fresh (dom c),
            Collection.bson_document
              {| Doc.message := m;
                 Doc.starts_at := None;
                 Doc.expires_at := expires_dt;
                 Doc.created_by := default u f;
                 Doc.created_at := now |}).
    split; [|apply find_sorted_elem_of].
    + unfold to_item. simpl. now destruct f.
    + split; [apply lookup_insert_eq|].
      apply active_query_spec. split; simpl; auto.
Qed.

(** X8. After an update that supplies only [message], list-all shows the
    announcement with the new message and with every other field as it
    was, and shows every other announcement as before. *)
Theorem updated_message_is_listed (u : string) (f : option string)
    (ann_id : string) (i : oid) (doc : Doc.t) (m : string)
    (c : gmap oid Doc.t) :
  u <> "" -> teachers_collection !! u = Some f ->
  ObjectId ann_id = Some i -> c !! i = Some doc ->
  exists c' items,
    update_announcement ann_id (Some m) None None (Some u) c
    = (Ok {| Updated.id := ann_id; Updated.updated := true |}, c')
    /\ get_all_announcements (Some u) c' = (Ok items, c')
    /\ {| Item.id := str i;
          Item.message := m;
          Item.starts_at := Doc.starts_at doc;
          Item.expires_at := Doc.expires_at doc;
          Item.created_by := Doc.created_by doc |} ∈ items
    /\ Forall (fun p => fst p = i \/ to_item p ∈ items) (map_to_list c)
    /\ length items = size c.
Proof.
  intros Hu Hf Hi Hd. pose proof (credential_ok u f Hu Hf) as Hn.
  eexists _, _. split; [|split; [apply (get_all_after_gate _ _ Hn)|]].
  - rewrite (update_after_gate _ _ _ _ _ _ Hn), Hi. simpl. rewrite Hd.
    reflexivity.
  - split; [|split].
    + apply list_elem_of_fmap. eexists (i, _).
      split; [|apply find_sorted_elem_of; split;
                 [apply lookup_insert_eq | reflexivity]].
      reflexivity.
    + apply Forall_forall. intros [j d] Hin.
      apply elem_of_map_to_list in Hin. simpl.
      destruct (decide (j = i)) as [->|Hne]; [now left|right].
      apply list_elem_of_fmap_2, find_sorted_elem_of.
      split; [now rewrite lookup_insert_ne|reflexivity].
    + rewrite length_fmap. unfold Collection.sort_expires_at.
      rewrite merge_sort_Permutation, find_everything_length.
      apply map_size_insert_Some. eauto.
Qed.

(** X9. After a successful delete, list-all no longer has the deleted
    announcement and still has every other one: its list is one shorter
    and holds exactly the stored announcements with another
    identifier. *)
Theorem deleted_announcement_is_not_listed (u : string)
    (f : option string) (ann_id : string) (i : oid) (doc : Doc.t)
    (c : gmap oid Doc.t) :
  u <> "" -> teachers_collection !! u = Some f ->
  ObjectId ann_id = Some i -> c !! i = Some doc ->
  exists c' docs,
    delete_announcement ann_id (Some u) c
    = (Ok {| Deleted.id := ann_id; Deleted.deleted := true |}, c')
    /\ get_all_announcements (Some u) c' = (Ok (to_item <$> docs), c')
    /\ (forall j d, (j, d) ∈ docs <-> j <> i /\ c !! j = Some d)
    /\ S (length (to_item <$> docs)) = size c.
Proof.
  intros Hu Hf Hi Hd. pose proof (credential_ok u f Hu Hf) as Hn.
  eexists _, _. split; [|split; [apply (get_all_after_gate _ _ Hn)|]].
  - rewrite (delete_after_gate _ _ _ Hn), Hi, Hd. reflexivity.
  - split.
    + intros j d. rewrite find_sorted_elem_of, lookup_delete_Some.
      split.
      * intros [[Hne Hl] _]. split; [congruence | exact Hl].
      * intros [Hne Hl]. split; [split; [congruence | exact Hl] | reflexivity].
    + rewrite length_fmap. unfold Collection.sort_expires_at.
      rewrite merge_sort_Permutation, find_everything_length.
      rewrite map_size_delete_Some by eauto.
      assert (size c <> 0%nat).
      { intros H0. apply map_size_empty_iff in H0. subst c.
        now rewrite lookup_empty in Hd. }
      lia.
Qed.

Lemma build_update_pure message expires_at starts_at c c0 :
  build_update message expires_at starts_at c
  = (fst (build_update message expires_at starts_at c0), c).
Proof.
  unfold build_update. run.
  destruct message, expires_at as [x|]; simpl;
    try destruct (fromisoformat x); simpl;
    destruct starts_at as [[|a y]|]; simpl;
    try destruct (fromisoformat (String a y)); reflexivity.
Qed.

Lemma set_fields_twice update doc :
  Collection.set_fields update (Collection.set_fields update doc)
  = Collection.set_fields update doc.
Proof.
  clear. unfold Collection.set_fields. simpl.
  destruct (UpdateSet.message update), (UpdateSet.starts_at update),
    (UpdateSet.expires_at update); reflexivity.
Qed.

(** X11. A successful update is idempotent: the same call made again
    succeeds with the same result and leaves the collection as the first
    call left it. *)
Theorem update_twice_is_update_once (ann_id : string)
    (message expires_at starts_at teacher_username : option string)
    (c c' : gmap oid Doc.t) (r : Updated.t) :
  update_announcement ann_id message expires_at starts_at teacher_username c
  = (Ok r, c') ->
  update_announcement ann_id message expires_at starts_at teacher_username c'
  = (Ok r, c').
Proof.
  intros H.
  assert (Hn : ~ no_credential teacher_username)
    by (eapply gate_passed_of_ok; exact H).
  rewrite (update_after_gate _ _ _ _ _ c Hn) in H.
  rewrite (update_after_gate _ _ _ _ _ c' Hn).
  rewrite (build_update_pure message expires_at starts_at c' c). simpl.
  destruct (ObjectId ann_id) as [i|]; [|discriminate].
  destruct (fst (build_update message expires_at starts_at c))
    as [update|e]; [|discriminate].
  destruct (UpdateSet.is_empty update); [discriminate|].
  destruct (c !! i) as [doc|] eqn:Hi; [|discriminate].
  inversion H; subst r c'.
  rewrite lookup_insert_eq, set_fields_twice, insert_insert_eq. reflexivity.
Qed.

(** X14. Create followed by delete of the returned identifier restores
    the collection: when the identifier string that create returned
    spells the identifier under which the document was stored, deleting
    it succeeds and the collection is again what it was before the
    create. *)
Theorem create_then_delete_restores (message expires_at starts_at
      teacher_username : option string) (now : datetime)
    (c : gmap oid Doc.t) (r : Created.t) (i : oid) (doc : Doc.t) :
  create_announcement message expires_at starts_at teacher_username now c
  = (Ok r, <[i := doc]> c) ->
  c !! i = None ->
  ObjectId (Created.id r) = Some i ->
  delete_announcement (Created.id r) teacher_username (<[i := doc]> c)
  = (Ok {| Deleted.id := Created.id r; Deleted.deleted := true |}, c).
Proof.
  intros H Hfree Hid.
  assert (Hn : ~ no_credential teacher_username)
    by (eapply gate_passed_of_ok; exact H).
  rewrite (delete_after_gate _ _ _ Hn), Hid, lookup_insert_eq.
  now rewrite delete_insert_id.
Qed.

(** ** The store's precision *)

Lemma bson_datetime_twice t :
  Collection.bson_datetime (Collection.bson_datetime t)
  = Collection.bson_datetime t.
Proof.
  clear. unfold Collection.bson_datetime. now rewrite Z.div_mul by lia.
Qed.

Lemma bson_document_in_milliseconds d :
  Collection.in_milliseconds (Collection.bson_document d).
Proof.
  clear. unfold Collection.in_milliseconds, Collection.bson_document. simpl.
  rewrite !bson_datetime_twice.
  destruct (Doc.starts_at d); simpl; now rewrite ?bson_datetime_twice.
Qed.

Lemma lt_encoded_iff n t :
  Collection.bson_datetime n < Collection.bson_datetime t
  <-> n < Collection.bson_datetime t.
Proof.
  clear. unfold Collection.bson_datetime.
  pose proof (Z.mul_div_le n 1000 ltac:(lia)).
  pose proof (Z.mul_succ_div_gt n 1000 ltac:(lia)).
  lia.
Qed.

Lemma le_encoded_iff n t :
  Collection.bson_datetime t <= Collection.bson_datetime n
  <-> Collection.bson_datetime t <= n.
Proof.
  clear. unfold Collection.bson_datetime.
  pose proof (Z.mul_div_le n 1000 ltac:(lia)).
  pose proof (Z.mul_succ_div_gt n 1000 ltac:(lia)).
  lia.
Qed.

(** On a document whose datetimes are whole milliseconds, the query of
    list-active gives the same answer for the current time and for the
    current time as the driver encodes it. *)
Lemma active_query_encoded_now now doc :
  Collection.in_milliseconds doc ->
  active_query (Collection.bson_datetime now) doc = active_query now doc.
Proof.
  clear. intros Hd. unfold Collection.in_milliseconds in Hd.
  rewrite <- Hd. unfold active_query, Collection.bson_document. simpl.
  assert ((Collection.bson_datetime now
           <? Collection.bson_datetime (Doc.expires_at doc))
          = (now <? Collection.bson_datetime (Doc.expires_at doc))) as ->.
  { apply eq_true_iff_eq. rewrite !Z.ltb_lt. apply lt_encoded_iff. }
  destruct (Doc.starts_at doc) as [s|]; simpl; [|reflexivity].
  assert ((Collection.bson_datetime s <=? Collection.bson_datetime now)
          = (Collection.bson_datetime s <=? now)) as ->; [|reflexivity].
  apply eq_true_iff_eq. rewrite !Z.leb_le. apply le_encoded_iff.
Qed.

(** The handlers store whole milliseconds only: when every stored
    document has its datetimes in whole milliseconds, so has every
    document stored after a create, update or delete call. *)
Lemma handlers_store_milliseconds teacher_username c :
  (forall i d, c !! i = Some d -> Collection.in_milliseconds d) ->
  (forall message expires_at starts_at now i d,
     snd (create_announcement message expires_at starts_at
            teacher_username now c) !! i = Some d ->
     Collection.in_milliseconds d)
  /\ (forall ann_id message expires_at starts_at i d,
        snd (update_announcement ann_id message expires_at starts_at
               teacher_username c) !! i = Some d ->
        Collection.in_milliseconds d)
  /\ (forall ann_id i d,
        snd (delete_announcement ann_id teacher_username c) !! i = Some d ->
        Collection.in_milliseconds d).
Proof.
  intros Hc.
  assert (Hset : forall update d,
    Collection.in_milliseconds d ->
    Collection.in_milliseconds (Collection.set_fields update d)).
  { intros update d Hd. unfold Collection.in_milliseconds in *.
    rewrite <- Hd.
    unfold Collection.set_fields, Collection.bson_document. simpl.
    rewrite !bson_datetime_twice.
    destruct (UpdateSet.starts_at update) as [[s|]|],
      (UpdateSet.expires_at update), (Doc.starts_at d); simpl;
      now rewrite ?bson_datetime_twice. }
  split; [|split]; intros until d.
  - apply (gated_cases _ _ _
             (fun r => snd r !! i = Some d -> Collection.in_milliseconds d));
      [intros; eapply Hc; eassumption|].
    body_cases; try (intros; eapply Hc; eassumption);
      (let H := fresh in
       intros H; apply lookup_insert_Some in H as [[_ <-] | [_ H]];
       [apply bson_document_in_milliseconds | eapply Hc; exact H]).
  - apply (gated_cases _ _ _
             (fun r => snd r !! i = Some d -> Collection.in_milliseconds d));
      [intros; eapply Hc; eassumption|].
    body_cases; try (intros; eapply Hc; eassumption);
      (let H := fresh in
       intros H; apply lookup_insert_Some in H as [[_ <-] | [_ H]];
       [apply Hset; eapply Hc; eassumption | eapply Hc; exact H]).
  - apply (gated_cases _ _ _
             (fun r => snd r !! i = Some d -> Collection.in_milliseconds d));
      [intros; eapply Hc; eassumption|].
    body_cases; try (intros; eapply Hc; eassumption);
      (let H := fresh in
       intros H; apply lookup_delete_Some in H as [_ H]; eapply Hc; exact H).
Qed.

End Handlers.


(** * The handlers at work

    The theorems above hold for every reading of the library functions;
    here they are applied, and the handlers run, at the reading of
    [Lib] on the state of [School]. *)

Example school_dates :
  Lib.fromisoformat "2026-01-15T09:00" = Some School.now
  /\ Lib.fromisoformat "2026-01-01" = Doc.starts_at School.exam
  /\ Lib.fromisoformat "2099-01-01T00:00" = Some (Doc.expires_at School.exam)
  /\ Lib.fromisoformat "not-a-date" = None
  /\ Lib.fromisoformat "" = None.
Proof. repeat split; reflexivity. Qed.

Example school_exam_id :
  Lib.ObjectId School.exam_id = Some School.exam_oid
  /\ Lib.str School.exam_oid = School.exam_id.
Proof. split; reflexivity. Qed.


Example school_list_active :
  fst (get_active_announcements Lib.str School.now School.announcements)
  = Ok [ {| Item.id := School.exam_id;
            Item.message := "Exam tomorrow";
            Item.starts_at := Some 1767225600000000;
            Item.expires_at := 4070908800000000;
            Item.created_by := "Ms. Rodriguez" |} ]
  /\ fst (get_active_announcements Lib.str 4070908800000000
            School.announcements) = Ok []
  /\ fst (get_active_announcements Lib.str 1767225599999999
            School.announcements) = Ok [].
Proof. repeat split; vm_compute; reflexivity. Qed.

(** The handlers at the reading of [Lib], on the teachers of [School]. *)
Abbreviation create := (create_announcement Lib.fromisoformat Lib.str School.teachers).
Abbreviation update := (update_announcement Lib.fromisoformat Lib.ObjectId School.teachers).
Abbreviation delete_ := (delete_announcement Lib.ObjectId School.teachers).
Abbreviation list_all := (get_all_announcements Lib.str School.teachers).

(** *** Creating *)

(** Two create requests with a valid credential, a non-empty message
    and an [expires_at] that parses.  The first has a [starts_at] that
    does not parse: the call raises with status 400 and stores nothing.
    The second is made at a time with microseconds: it succeeds, and the
    stored [created_at] is that time without its microseconds, not the
    time itself. *)
Lemma create_raises_or_rounds_created_at :
  School.teachers !! "mrodriguez" = Some (Some "Ms. Rodriguez")
  /\ is_Some (Lib.fromisoformat "2099-01-01T00:00")
  /\ (create (Some "Exam tomorrow") (Some "2099-01-01T00:00")
        (Some "not-a-date") (Some "mrodriguez") School.now
        School.announcements
      = (Raise {| status_code := 400;
                  detail := "Invalid starts_at format. Use ISO datetime format (e.g. YYYY-MM-DDTHH:MM)" |},
         School.announcements)
      /\ ~ exists r c',
             create (Some "Exam tomorrow") (Some "2099-01-01T00:00")
               (Some "not-a-date") (Some "mrodriguez") School.now
               School.announcements
             = (Ok r, c'))
  /\ (snd (create (Some "Exam tomorrow") (Some "2099-01-01T00:00") None
             (Some "mrodriguez") 1768467600123456 School.announcements)
      = <[24912482966938930280208240658%N :=
            {| Doc.message := "Exam tomorrow";
               Doc.starts_at := None;
               Doc.expires_at := 4070908800000000;
               Doc.created_by := "Ms. Rodriguez";
               Doc.created_at := 1768467600123000 |}]> School.announcements
      /\ 1768467600123000 <> 1768467600123456).
Proof.
  assert (H : create (Some "Exam tomorrow") (Some "2099-01-01T00:00")
                (Some "not-a-date") (Some "mrodriguez") School.now
                School.announcements
              = (Raise {| status_code := 400;
                          detail := "Invalid starts_at format. Use ISO datetime format (e.g. YYYY-MM-DDTHH:MM)" |},
                 School.announcements))
    by (vm_compute; reflexivity).
  split; [reflexivity|]. split; [vm_compute; eauto|]. split; [split|].
  - exact H.
  - intros (r & c' & H'). rewrite H in H'. discriminate.
  - split; [vm_compute; reflexivity | discriminate].
Qed.

Lemma create_persists_document_witness :
  exists i doc,
    create (Some "Exam tomorrow") (Some "2099-01-01T00:00") None
      (Some "principal") School.now School.announcements
    = (Ok {| Created.id := Lib.str i; Created.message := "Exam tomorrow" |},
       <[i := doc]> School.announcements)
    /\ School.announcements !! i = None
    /\ Doc.message doc = "Exam tomorrow"
    /\ Doc.expires_at doc = 4070908800000000
    /\ Doc.created_by doc = "principal"
    /\ Doc.created_at doc = School.now.
Proof.
  apply (create_persists_document Lib.fromisoformat Lib.str School.teachers
           eq_refl "principal" None "Exam tomorrow" "2099-01-01T00:00"
           None School.now School.announcements 4070908800000000).
  - discriminate.
  - reflexivity.
  - discriminate.
  - reflexivity.
  - left. reflexivity.
Defined.

Lemma create_empty_starts_at_is_null_witness :
  exists i doc,
    create (Some "Exam tomorrow") (Some "2099-01-01T00:00") (Some "")
      (Some "mrodriguez") School.now School.announcements
    = (Ok {| Created.id := Lib.str i; Created.message := "Exam tomorrow" |},
       <[i := doc]> School.announcements)
    /\ School.announcements !! i = None
    /\ Doc.starts_at doc = None
    /\ create (Some "Exam tomorrow") (Some "2099-01-01T00:00") (Some "")
         (Some "mrodriguez") School.now School.announcements
       = create (Some "Exam tomorrow") (Some "2099-01-01T00:00") None
           (Some "mrodriguez") School.now School.announcements.
Proof.
  apply (create_empty_starts_at_is_null Lib.fromisoformat Lib.str
           School.teachers eq_refl "mrodriguez" (Some "Ms. Rodriguez")
           "Exam tomorrow" "2099-01-01T00:00" School.now
           School.announcements 4070908800000000).
  - discriminate.
  - reflexivity.
  - discriminate.
  - reflexivity.
Defined.

(** A create request whose [starts_at] is supplied as the empty string:
    the empty string spells no datetime, yet the call does not fail. *)
Lemma create_empty_starts_at_not_bad_request :
  School.teachers !! "mrodriguez" = Some (Some "Ms. Rodriguez")
  /\ Lib.fromisoformat "" = None
  /\ fst (create (Some "Exam tomorrow") (Some "2099-01-01T00:00") (Some "")
            (Some "mrodriguez") School.now School.announcements)
     = Ok {| Created.id := "507f1f77bcf86cd799439012";
             Created.message := "Exam tomorrow" |}
  /\ ~ fails_with
         (fst (create (Some "Exam tomorrow") (Some "2099-01-01T00:00")
                 (Some "") (Some "mrodriguez") School.now
                 School.announcements)) BadRequest.
Proof.
  split; [reflexivity|]. split; [reflexivity|].
  split; [vm_compute; reflexivity|]. vm_compute. tauto.
Qed.

Lemma create_bad_request_witness :
  fails_with
    (fst (create (Some "Exam tomorrow") (Some "not-a-date") None
            (Some "mrodriguez") School.now School.announcements))
    BadRequest
  /\ snd (create (Some "Exam tomorrow") (Some "not-a-date") None
            (Some "mrodriguez") School.now School.announcements)
     = School.announcements.
Proof.
  apply (create_bad_request Lib.fromisoformat Lib.str School.teachers
           "mrodriguez" (Some "Ms. Rodriguez")).
  - discriminate.
  - reflexivity.
  - do 4 right. left. exists "not-a-date". split; reflexivity.
Defined.

(** *** Updating *)

Lemma update_changes_only_supplied_fields_witness :
  {| Updated.id := School.exam_id; Updated.updated := true |}
  = {| Updated.id := School.exam_id; Updated.updated := true |}
  /\ exists i doc doc',
       Lib.ObjectId School.exam_id = Some i
       /\ School.announcements !! i = Some doc
       /\ <[School.exam_oid :=
              {| Doc.message := "Exam moved to Friday";
                 Doc.starts_at := Doc.starts_at School.exam;
                 Doc.expires_at := Doc.expires_at School.exam;
                 Doc.created_by := Doc.created_by School.exam;
                 Doc.created_at := Doc.created_at School.exam |}]>
            School.announcements
          = <[i := doc']> School.announcements
       /\ (forall j, j <> i ->
             <[School.exam_oid :=
                 {| Doc.message := "Exam moved to Friday";
                    Doc.starts_at := Doc.starts_at School.exam;
                    Doc.expires_at := Doc.expires_at School.exam;
                    Doc.created_by := Doc.created_by School.exam;
                    Doc.created_at := Doc.created_at School.exam |}]>
               School.announcements !! j
             = School.announcements !! j)
       /\ Doc.message doc' = "Exam moved to Friday"
       /\ Doc.expires_at doc' = Doc.expires_at doc
       /\ Doc.starts_at doc' = Doc.starts_at doc
       /\ Doc.created_by doc' = Doc.created_by doc
       /\ Doc.created_at doc' = Doc.created_at doc.
Proof.
  apply (update_changes_only_supplied_fields Lib.fromisoformat Lib.ObjectId
           School.teachers School.exam_id (Some "Exam moved to Friday")
           None None (Some "mrodriguez") School.announcements).
  vm_compute. reflexivity.
Defined.

(** An update request that supplies [starts_at] as the empty string
    together with an [expires_at] that does not parse: credential and
    identifier are valid and the announcement is stored, yet the call
    raises with status 400 and the stored [starts_at] is not cleared. *)
Lemma update_empty_starts_at_bad_expires_at_raises :
  School.teachers !! "mrodriguez" = Some (Some "Ms. Rodriguez")
  /\ Lib.ObjectId School.exam_id = Some School.exam_oid
  /\ School.announcements !! School.exam_oid = Some School.exam
  /\ update School.exam_id None (Some "not-a-date") (Some "")
       (Some "mrodriguez") School.announcements
     = (Raise {| status_code := 400; detail := "Invalid expires_at format" |},
        School.announcements)
  /\ Doc.starts_at School.exam <> None.
Proof.
  split; [reflexivity|]. split; [reflexivity|]. split; [reflexivity|].
  split; [vm_compute; reflexivity|]. discriminate.
Qed.

Lemma update_empty_starts_at_clears_witness :
  exists doc' docs,
    update School.exam_id None None (Some "") (Some "mrodriguez")
      School.announcements
    = (Ok {| Updated.id := School.exam_id; Updated.updated := true |},
       <[School.exam_oid := doc']> School.announcements)
    /\ Doc.starts_at doc' = None
    /\ list_all (Some "mrodriguez")
         (<[School.exam_oid := doc']> School.announcements)
       = (Ok (to_item Lib.str <$> docs),
          <[School.exam_oid := doc']> School.announcements)
    /\ (School.exam_oid, doc') ∈ docs
    /\ (forall d, (School.exam_oid, d) ∈ docs ->
          Item.starts_at (to_item Lib.str (School.exam_oid, d)) = None).
Proof.
  apply (update_empty_starts_at_clears Lib.fromisoformat Lib.ObjectId
           Lib.str School.teachers "mrodriguez" (Some "Ms. Rodriguez")
           School.exam_id School.exam_oid School.exam None None
           School.announcements).
  - discriminate.
  - reflexivity.
  - reflexivity.
  - reflexivity.
  - left. reflexivity.
Defined.

Lemma update_nothing_supplied_or_not_found_witness :
  (fails_with
     (fst (update School.exam_id None None None (Some "mrodriguez")
             School.announcements)) BadRequest
   /\ snd (update School.exam_id None None None (Some "mrodriguez")
             School.announcements) = School.announcements)
  /\ (fails_with
        (fst (update School.exam_id (Some "Exam moved to Friday") None
                (Some "") (Some "mrodriguez") ∅)) NotFound
      /\ snd (update School.exam_id (Some "Exam moved to Friday") None
                (Some "") (Some "mrodriguez") ∅) = ∅).
Proof.
  split.
  - apply (update_nothing_supplied_or_not_found Lib.fromisoformat
             Lib.ObjectId School.teachers "mrodriguez"
             (Some "Ms. Rodriguez") School.exam_id School.exam_oid).
    + discriminate.
    + reflexivity.
    + reflexivity.
    + left. repeat split; reflexivity.
  - apply (update_nothing_supplied_or_not_found Lib.fromisoformat
             Lib.ObjectId School.teachers "mrodriguez"
             (Some "Ms. Rodriguez") School.exam_id School.exam_oid).
    + discriminate.
    + reflexivity.
    + reflexivity.
    + right. split; [left; eauto|]. split; [now left|].
      split; [right; now left|]. split; reflexivity.
Defined.

(** C9. The stored announcement of [School] has a non-empty message; an
    update request with a valid credential whose [message] is the empty
    string succeeds, and the stored message is empty afterwards. *)
Theorem update_breaks_nonempty_message :
  Doc.message <$> School.announcements !! School.exam_oid
  = Some "Exam tomorrow"
  /\ exists c',
       update School.exam_id (Some "") None None (Some "mrodriguez")
         School.announcements
       = (Ok {| Updated.id := School.exam_id; Updated.updated := true |}, c')
       /\ Doc.message <$> c' !! School.exam_oid = Some "".
Proof.
  split; [reflexivity|].
  eexists. split.
  - apply (update_stores_empty_message Lib.fromisoformat Lib.ObjectId
             School.teachers "mrodriguez" (Some "Ms. Rodriguez")
             School.exam_id School.exam_oid School.exam);
      [discriminate | reflexivity | reflexivity | reflexivity].
  - rewrite lookup_insert_eq. reflexivity.
Qed.

(** *** Deleting *)

Lemma delete_removes_then_not_found_witness :
  exists c',
    delete_ School.exam_id (Some "mrodriguez") School.announcements
    = (Ok {| Deleted.id := School.exam_id; Deleted.deleted := true |}, c')
    /\ c' !! School.exam_oid = None
    /\ (forall j, j <> School.exam_oid ->
          c' !! j = School.announcements !! j)
    /\ fails_with (fst (delete_ School.exam_id (Some "mrodriguez") c'))
         NotFound
    /\ snd (delete_ School.exam_id (Some "mrodriguez") c') = c'.
Proof.
  apply (delete_removes_then_not_found Lib.ObjectId School.teachers
           "mrodriguez" (Some "Ms. Rodriguez") School.exam_id
           School.exam_oid School.announcements).
  - discriminate.
  - reflexivity.
  - reflexivity.
Defined.

(** *** Further properties, at work *)

Lemma gate_is_checked_first_witness :
  exists e,
    status_code e = 401
    /\ detail e = "Invalid teacher credentials"
    /\ list_all (Some "nobody") School.announcements
       = (Raise e, School.announcements)
    /\ (forall message expires_at starts_at now,
          create message expires_at starts_at (Some "nobody") now
            School.announcements = (Raise e, School.announcements))
    /\ (forall ann_id message expires_at starts_at,
          update ann_id message expires_at starts_at (Some "nobody")
            School.announcements = (Raise e, School.announcements))
    /\ (forall ann_id,
          delete_ ann_id (Some "nobody") School.announcements
          = (Raise e, School.announcements)).
Proof.
  apply (gate_is_checked_first Lib.fromisoformat Lib.ObjectId Lib.str
           School.teachers (Some "nobody") School.announcements).
  right. right. exists "nobody". split; reflexivity.
Defined.

Lemma malformed_identifier_is_bad_request_witness :
  update "not-an-id" (Some "Exam moved to Friday") (Some "not-a-date") None
    (Some "mrodriguez") School.announcements
  = (Raise {| status_code := 400; detail := "Invalid announcement id" |},
     School.announcements)
  /\ delete_ "not-an-id" (Some "mrodriguez") School.announcements
     = (Raise {| status_code := 400; detail := "Invalid announcement id" |},
        School.announcements).
Proof.
  apply (malformed_identifier_is_bad_request Lib.fromisoformat Lib.ObjectId
           School.teachers "mrodriguez" (Some "Ms. Rodriguez")).
  - discriminate.
  - reflexivity.
  - reflexivity.
Defined.

Lemma update_unparseable_timestamp_is_bad_request_witness :
  fails_with
    (fst (update School.exam_id None None (Some "next week")
            (Some "mrodriguez") School.announcements)) BadRequest
  /\ snd (update School.exam_id None None (Some "next week")
            (Some "mrodriguez") School.announcements)
     = School.announcements.
Proof.
  apply (update_unparseable_timestamp_is_bad_request Lib.fromisoformat
           Lib.ObjectId School.teachers "mrodriguez" (Some "Ms. Rodriguez")
           School.exam_id School.exam_oid).
  - discriminate.
  - reflexivity.
  - reflexivity.
  - right. exists "next week".
    split; [reflexivity | split; [discriminate | reflexivity]].
Defined.

Lemma list_all_returns_every_announcement_witness :
  exists docs : list (N * Doc.t),
    list_all (Some "principal") School.announcements
    = (Ok (to_item Lib.str <$> docs), School.announcements)
    /\ NoDup docs.*1
    /\ (forall i doc, (i, doc) ∈ docs <-> School.announcements !! i = Some doc)
    /\ StronglySorted (fun a b => Item.expires_at a <= Item.expires_at b)
         (to_item Lib.str <$> docs)
    /\ length (to_item Lib.str <$> docs) = size School.announcements.
Proof.
  apply (list_all_returns_every_announcement Lib.str School.teachers
           "principal" None School.announcements).
  - discriminate.
  - reflexivity.
Defined.

Lemma list_active_within_list_all_witness :
  exists active all,
    get_active_announcements Lib.str School.now School.announcements
    = (Ok active, School.announcements)
    /\ list_all (Some "mrodriguez") School.announcements
       = (Ok all, School.announcements)
    /\ active ⊆ all
    /\ (length active <= length all)%nat.
Proof.
  apply (list_active_within_list_all Lib.str School.teachers "mrodriguez"
           (Some "Ms. Rodriguez") School.now School.announcements).
  - discriminate.
  - reflexivity.
Defined.

Lemma created_announcement_is_listed_active_witness :
  exists i c' items,
    create (Some "Sports day") (Some "2026-06-01T18:00") None
      (Some "mrodriguez") School.now School.announcements
    = (Ok {| Created.id := Lib.str i; Created.message := "Sports day" |}, c')
    /\ get_active_announcements Lib.str School.now c' = (Ok items, c')
    /\ {| Item.id := Lib.str i;
          Item.message := "Sports day";
          Item.starts_at := None;
          Item.expires_at := 1780336800000000;
          Item.created_by := "Ms. Rodriguez" |} ∈ items.
Proof.
  apply (created_announcement_is_listed_active Lib.fromisoformat Lib.str
           School.teachers "mrodriguez" (Some "Ms. Rodriguez") "Sports day"
           "2026-06-01T18:00" None School.now School.now
           School.announcements 1780336800000000).
  - discriminate.
  - reflexivity.
  - discriminate.
  - discriminate.
  - reflexivity.
  - left. reflexivity.
  - reflexivity.
Defined.

Lemma updated_message_is_listed_witness :
  exists c' items,
    update School.exam_id (Some "Exam moved to Friday") None None
      (Some "mrodriguez") School.announcements
    = (Ok {| Updated.id := School.exam_id; Updated.updated := true |}, c')
    /\ list_all (Some "mrodriguez") c' = (Ok items, c')
    /\ {| Item.id := Lib.str School.exam_oid;
          Item.message := "Exam moved to Friday";
          Item.starts_at := Doc.starts_at School.exam;
          Item.expires_at := Doc.expires_at School.exam;
          Item.created_by := Doc.created_by School.exam |} ∈ items
    /\ Forall (fun p => fst p = School.exam_oid
                        \/ to_item Lib.str p ∈ items)
         (map_to_list School.announcements)
    /\ length items = size School.announcements.
Proof.
  apply (updated_message_is_listed Lib.fromisoformat Lib.ObjectId Lib.str
           School.teachers "mrodriguez" (Some "Ms. Rodriguez")
           School.exam_id School.exam_oid School.exam
           "Exam moved to Friday" School.announcements).
  - discriminate.
  - reflexivity.
  - reflexivity.
  - reflexivity.
Defined.

Lemma deleted_announcement_is_not_listed_witness :
  exists c' docs,
    delete_ School.exam_id (Some "mrodriguez") School.announcements
    = (Ok {| Deleted.id := School.exam_id; Deleted.deleted := true |}, c')
    /\ list_all (Some "mrodriguez") c' = (Ok (to_item Lib.str <$> docs), c')
    /\ (forall j d,
          (j, d) ∈ docs
          <-> j <> School.exam_oid /\ School.announcements !! j = Some d)
    /\ S (length (to_item Lib.str <$> docs)) = size School.announcements.
Proof.
  apply (deleted_announcement_is_not_listed Lib.ObjectId Lib.str
           School.teachers "mrodriguez" (Some "Ms. Rodriguez")
           School.exam_id School.exam_oid School.exam School.announcements).
  - discriminate.
  - reflexivity.
  - reflexivity.
  - reflexivity.
Defined.

Lemma update_twice_is_update_once_witness :
  update School.exam_id None (Some "2026-06-01T18:00") (Some "")
    (Some "mrodriguez")
    (<[School.exam_oid :=
         {| Doc.message := "Exam tomorrow";
            Doc.starts_at := None;
            Doc.expires_at := 1780336800000000;
            Doc.created_by := "Ms. Rodriguez";
            Doc.created_at := 1767225600000000 |}]> School.announcements)
  = (Ok {| Updated.id := School.exam_id; Updated.updated := true |},
     <[School.exam_oid :=
         {| Doc.message := "Exam tomorrow";
            Doc.starts_at := None;
            Doc.expires_at := 1780336800000000;
            Doc.created_by := "Ms. Rodriguez";
            Doc.created_at := 1767225600000000 |}]> School.announcements).
Proof.
  apply (update_twice_is_update_once Lib.fromisoformat Lib.ObjectId
           School.teachers School.exam_id None (Some "2026-06-01T18:00")
           (Some "") (Some "mrodriguez") School.announcements).
  vm_compute. reflexivity.
Defined.

Lemma create_then_delete_restores_witness :
  delete_ "507f1f77bcf86cd799439012" (Some "mrodriguez")
    (<[24912482966938930280208240658%N :=
         {| Doc.message := "Sports day";
            Doc.starts_at := None;
            Doc.expires_at := 1780336800000000;
            Doc.created_by := "Ms. Rodriguez";
            Doc.created_at := School.now |}]> School.announcements)
  = (Ok {| Deleted.id := "507f1f77bcf86cd799439012";
           Deleted.deleted := true |},
     School.announcements).
Proof.
  apply (create_then_delete_restores Lib.fromisoformat Lib.ObjectId Lib.str
           School.teachers (Some "Sports day") (Some "2026-06-01T18:00")
           None (Some "mrodriguez") School.now School.announcements
           {| Created.id := "507f1f77bcf86cd799439012";
              Created.message := "Sports day" |}).
  - vm_compute. reflexivity.
  - reflexivity.
  - reflexivity.
Defined.
